(** * fastqContaminator: a shallow embedding and its verified properties

    The program [fastqContaminator.py] (Python 2) mixes reads of a
    "contaminant" paired-end FASTQ source into a "sample" source.  It counts
    lines, turns a proportion into read counts with double-precision
    arithmetic and [int()], and drives the external tool [fastq-sample] and
    the shell ([cat], [rm]) through [subprocess.call(..., shell=True)].

    Layout of this file:
    - Part I   Python values: doubles ([PyFloat]), decimal rendering;
    - Part II  the world (files, stdout, issued commands) and the monad;
    - Part III the functions of the script, one definition per function;
    - Part IV  a model of the environment (shell words, [cat], [rm],
               [fastq-sample]) used only by the statements on file contents;
    - Part V   lemmas and the theorems on the claims;
    - Part VI  further properties of the script: how a run can end, what it
               prints and issues, names, word splitting, the ends of the
               range of proportions;
    - Part VII the seed of the samplings and reproducibility; inputs on
               which the concatenation is not obtained. *)

From Stdlib Require Import ZArith QArith Qround Qabs Qpower Lia Floats Ascii String
  Decimal DecimalString DecimalZ.
From stdpp Require Import base tactics option list strings gmap.

Set Default Proof Using "Type".
Local Open Scope Z_scope.

(* ===================================================================== *)
(** * Part I — Python values *)
(* ===================================================================== *)

(** Exceptions the script can die of (none is caught anywhere). *)
Inductive exn : Set :=
  | IOError        (* open() of a missing file *)
  | ValueError     (* int(nan) *)
  | OverflowError  (* int(inf) *)
  | TypeError.     (* None subscripted, iterated, or given to %d *)

(** ** Doubles

    A Python [float] is an IEEE-754 binary64.  We use the Standard Library's
    executable specification [SpecFloat] at precision 53 and [emax = 1024];
    every operation below rounds to nearest, ties to even, as the hardware
    does. *)
Module PyFloat.

Definition prec : Z := 53.
Definition emax : Z := 1024.

(** A well-formed double: canonical mantissa and exponent in range. *)
Definition valid (x : spec_float) : bool := SpecFloat.valid_binary prec emax x.

(** [float(n)] for a Python integer: the implicit conversion an [int]
    operand undergoes in [int * float] and [int - float]. *)
Definition of_int (n : Z) : spec_float := binary_normalize prec emax n 0 false.

(** The conversion as Python performs it: an integer whose nearest double
    is out of range raises [OverflowError] instead of giving an infinity. *)
Definition float_of_int (n : Z) : exn + spec_float :=
  match of_int n with
  | S754_infinity _ => inl OverflowError
  | x => inr x
  end.

Definition mul (x y : spec_float) : spec_float := SFmul prec emax x y.
Definition sub (x y : spec_float) : spec_float := SFsub prec emax x y.
Definition leb (x y : spec_float) : bool := SFleb x y.

(** [int(x)]: the integral part, truncated toward zero.  [int(nan)] raises
    [ValueError], [int(inf)] raises [OverflowError].  [Z.shiftl] by a
    negative amount is a right shift, so the magnitude [m * 2^e] loses its
    fractional bits before the sign is applied. *)
Definition to_int (x : spec_float) : exn + Z :=
  match x with
  | S754_nan => inl ValueError
  | S754_infinity _ => inl OverflowError
  | S754_zero _ => inr 0
  | S754_finite s m e => inr (cond_Zopp s (Z.shiftl (Zpos m) e))
  end.

(** The real number a finite double denotes, as a rational. *)
Definition value (x : spec_float) : option Q :=
  match x with
  | S754_zero _ => Some (0 # 1)%Q
  | S754_finite s m e =>
      Some (inject_Z (cond_Zopp s (Zpos m)) * Qpower (2 # 1) e)%Q
  | _ => None
  end.

(** Mathematical roundings of the denoted value: [floor] is the greatest
    integer below, [truncate] drops the fraction, [nearest z] says that
    [z] is an integer at distance at most 1/2. *)
Definition Qtruncate (q : Q) : Z :=
  if Qle_bool 0 q then Qfloor q else Qceiling q.
Definition floor (x : spec_float) : option Z := Qfloor <$> value x.
Definition truncate (x : spec_float) : option Z := Qtruncate <$> value x.
Definition nearest (x : spec_float) (z : Z) : Prop :=
  match value x with
  | Some q => (Qabs (q - inject_Z z) <= 1 # 2)%Q
  | None => False
  end.

(** [nonneg_below s U x]: [x] is a zero, or a finite double of sign [s]
    whose leading bit is below [2^U]. *)
Definition nonneg_below (s : bool) (U : Z) (x : spec_float) : Prop :=
  match x with
  | S754_zero _ => True
  | S754_finite s' m e => s' = s ∧ Zpos (digits2_pos m) + e ≤ U
  | _ => False
  end.

End PyFloat.

(** ** Decimal rendering

    ["%d" % n] and ["%s" % n] of a Python integer: an optional minus sign and
    the decimal digits, no padding. *)
Definition dec (n : Z) : string := NilZero.string_of_int (Z.to_int n).

(** The characters [dec] writes: the ten digits and the minus sign. *)
Definition numeric_char (a : ascii) : bool :=
  let n := N_of_ascii a in ((48 <=? n) && (n <=? 57) || (n =? 45))%N.

Fixpoint numeric (s : string) : bool :=
  match s with
  | "" => true
  | String a s' => numeric_char a && numeric s'
  end.

(** The inverse, used by the modelled command-line tools to read a number. *)
Definition undec (s : string) : option Z := Z.of_int <$> NilZero.int_of_string s.

(* ===================================================================== *)
(** * Part II — the world and the monad of the script *)
(* ===================================================================== *)

(** A text file is the list of its lines; the file system maps a path (as
    typed on the command line, relative to the working directory) to its
    file. *)
Abbreviation file_system := (gmap string (list string)).

(** One [print] statement: the format string and the values it is applied
    to with [%].  The text written to standard output is [fmt % args]
    followed by a newline; the rendering of [%f] is left to Python. *)
Inductive pyval : Type :=
  | VInt (n : Z)
  | VFloat (x : spec_float).

Record printed : Type := Printed { fmt : string; args : list pyval }.

(** The state the script runs in.  [issued] is a ghost log: the command
    lines handed to [subprocess.call], oldest first. *)
Record world : Type := World {
  files : file_system;
  stdout : list printed;
  issued : list string
}.

(** How a computation ends: with a value, by [sys.exit(arg)] (the exception
    [SystemExit], never caught in the script), or by an uncaught error. *)
Inductive outcome (A : Type) : Type :=
  | Ok (a : A)
  | SysExit (arg : option Z)
  | Uncaught (e : exn).
Arguments Ok {A} a.
Arguments SysExit {A} arg.
Arguments Uncaught {A} e.

Definition M (A : Type) : Type := world → outcome A * world.

Definition M_ret {A} (a : A) : M A := λ w, (Ok a, w).

Definition M_bind {A B} (k : A → M B) (m : M A) : M B := λ w,
  match m w with
  | (Ok a, w') => k a w'
  | (SysExit c, w') => (SysExit c, w')
  | (Uncaught e, w') => (Uncaught e, w')
  end.

#[global] Instance M_mret : MRet M := @M_ret.
#[global] Instance M_mbind : MBind M := @M_bind.

Definition raise {A} (e : exn) : M A := λ w, (Uncaught e, w).

(** A pure Python expression that may raise. *)
Definition eval {A} (r : exn + A) : M A :=
  match r with inl e => raise e | inr a => mret a end.

(** [sys.exit()]: raises [SystemExit(None)]. *)
Definition sys_exit {A} : M A := λ w, (SysExit None, w).

(** [print fmt % args]. *)
Definition print (text : string) (vs : list pyval) : M unit := λ w,
  (Ok tt, {| files := files w;
             stdout := stdout w ++ [Printed text vs];
             issued := issued w |}).

(** The status with which the interpreter process ends.  Python: a normal
    end and [sys.exit()] without argument (or with [None]) give 0,
    [sys.exit(n)] gives [n], an uncaught exception gives 1. *)
Definition exit_status {A} (o : outcome A) : Z :=
  match o with
  | Ok _ => 0
  | SysExit None => 0
  | SysExit (Some n) => n
  | Uncaught _ => 1
  end.

(* ===================================================================== *)
(** * Part III — the script *)
(* ===================================================================== *)

(** The parsed command line ([args = parser.parse_args()]).  No option is
    declared [required], so each attribute is [None] when its flag is
    absent; [nargs=2] yields a pair, [nargs='*'] a list. *)
Record arguments : Type := Arguments {
  sampleFiles : option (string * string);
  contaminantFiles : option (string * string);
  proportionContaminant : option (list spec_float);
  seed : option Z
}.

Section Script.

(** The environment: what running a command line with [/bin/sh -c] does to
    the file system, and the status it returns.  The script is embedded
    for an arbitrary environment. *)
Variable shell : string → file_system → file_system * Z.

(** [subprocess.call(cmd, shell=True)]: runs the command, waits, returns
    its status. *)
Definition subprocess_call (cmd : string) : M Z := λ w,
  let '(fs, rc) := shell cmd (files w) in
  (Ok rc, {| files := fs; stdout := stdout w; issued := issued w ++ [cmd] |}).

(** The world once a command has run. *)
Definition after_call (cmd : string) (w : world) : world :=
  {| files := (shell cmd (files w)).1;
     stdout := stdout w;
     issued := issued w ++ [cmd] |}.

(** [countFileLines]: [sum(1 for line in open(myFile))]. *)
Definition countFileLines (myFile : string) : M Z := λ w,
  match files w !! myFile with
  | Some lines => (Ok (Z.of_nat (length lines)), w)
  | None => (Uncaught IOError, w)
  end.

(** [checkInputFiles]. *)
Definition checkInputFiles
    (sampleReads1 sampleReads2 contaminantReads1 contaminantReads2 : string)
    : M unit :=
  a ← countFileLines sampleReads1;
  b ← countFileLines sampleReads2;
  (if negb (a =? b) then
     print "The 2 paired-end sample files provided have a different number of reads/lines." [];;
     sys_exit
   else mret tt);;
  c ← countFileLines contaminantReads1;
  d ← countFileLines contaminantReads2;
  if negb (c =? d) then
    print "The 2 paired-end contamination files provided have different number of reads/lines." [];;
    sys_exit
  else mret tt.

(** The two line counts of [calculateLinesRequired], as expressions:
    [int(numOfLines * (1 - proportionContaminant))] and
    [int(numOfLines * proportionContaminant)].  The integer operand is
    converted to a double for the product, which raises [OverflowError]
    when it is out of range. *)
Definition numOfSampleLines (numOfLines : Z) (p : spec_float) : exn + Z :=
  match PyFloat.float_of_int numOfLines with
  | inl e => inl e
  | inr n => PyFloat.to_int (PyFloat.mul n (PyFloat.sub (PyFloat.of_int 1) p))
  end.

Definition numOfContaminantLines (numOfLines : Z) (p : spec_float) : exn + Z :=
  match PyFloat.float_of_int numOfLines with
  | inl e => inl e
  | inr n => PyFloat.to_int (PyFloat.mul n p)
  end.

(** [calculateLinesRequired].  [int(n / 4)] on a Python 2 [int] is the
    floor division [n / 4] ([int] of an integer is the identity). *)
Definition calculateLinesRequired
    (sampleReads1 contaminantReads1 : string) (p : spec_float)
    : M (Z * Z * Z) :=
  numOfLines ← countFileLines sampleReads1;
  sampleLines ← eval (numOfSampleLines numOfLines p);
  let numOfSampleReads := sampleLines / 4 in
  contaminantLines ← eval (numOfContaminantLines numOfLines p);
  let numOfContaminantReads := contaminantLines / 4 in
  available ← countFileLines contaminantReads1;
  if available <? contaminantLines then
    print "Contamination file too small to provide the %d lines required for %f contamination."
          [VInt contaminantLines; VFloat p];;
    sys_exit
  else mret (numOfLines, numOfSampleReads, numOfContaminantReads).

(** The command line of [sampleFastqReads]:
    ["fastq-sample -n %d -o %s -s %d %s %s"
       % (numOfLinesRequired, myPrefix, seedNum, file1, file2)]. *)
Definition sample_command
    (numOfLinesRequired : Z) (myPrefix : string) (seedNum : Z)
    (file1 file2 : string) : string :=
  "fastq-sample -n " +:+ dec numOfLinesRequired +:+ " -o " +:+ myPrefix
  +:+ " -s " +:+ dec seedNum +:+ " " +:+ file1 +:+ " " +:+ file2.

(** [sampleFastqReads].  [%d] of [None] (no [-s] given) is a [TypeError]. *)
Definition sampleFastqReads
    (file1 file2 : string) (seedNum : option Z) (numOfLinesRequired : Z)
    (myPrefix : string) : M Z :=
  match seedNum with
  | None => raise TypeError
  | Some s =>
      subprocess_call
        (sample_command numOfLinesRequired myPrefix s file1 file2)
  end.

(** [int((proportionContaminant * 100))], the number put in every name. *)
Definition percent (p : spec_float) : exn + Z :=
  PyFloat.to_int (PyFloat.mul p (PyFloat.of_int 100)).

(** The names built in [simulateContamination]. *)
Definition temp_sample (k : Z) : string := "temp_sample" +:+ dec k.
Definition temp_contaminant (k : Z) : string := "temp_contaminant" +:+ dec k.
Definition output_name (k : Z) (sampleReads : string) : string :=
  "conPercent" +:+ dec k +:+ "_" +:+ sampleReads.

(** The third command:
    ["cat %s.1.fastq %s.1.fastq > conPercent%s_%s &&"
     " cat %s.2.fastq %s.2.fastq > conPercent%s_%s &&"
     " rm %s.1.fastq %s.1.fastq %s.2.fastq %s.2.fastq"]. *)
Definition combine_command
    (ts tc : string) (k1 : Z) (sampleReads1 : string)
    (k2 : Z) (sampleReads2 : string) : string :=
  "cat " +:+ ts +:+ ".1.fastq " +:+ tc +:+ ".1.fastq > "
    +:+ output_name k1 sampleReads1 +:+ " &&"
  +:+ " cat " +:+ ts +:+ ".2.fastq " +:+ tc +:+ ".2.fastq > "
    +:+ output_name k2 sampleReads2 +:+ " &&"
  +:+ " rm " +:+ ts +:+ ".1.fastq " +:+ tc +:+ ".1.fastq "
    +:+ ts +:+ ".2.fastq " +:+ tc +:+ ".2.fastq".

(** [simulateContamination].  [int(p * 100)] is evaluated four times, as
    in the source; the return codes of the two samplings are dropped. *)
Definition simulateContamination
    (sampleReads1 sampleReads2 contaminantReads1 contaminantReads2 : string)
    (p : spec_float) (numOfSampleReads numOfContaminantReads : Z)
    (seedNum : option Z) : M Z :=
  ka ← eval (percent p);
  let ts := temp_sample ka in
  kb ← eval (percent p);
  let tc := temp_contaminant kb in
  sampleFastqReads sampleReads1 sampleReads2 seedNum numOfSampleReads ts;;
  sampleFastqReads contaminantReads1 contaminantReads2 seedNum
                   numOfContaminantReads tc;;
  k1 ← eval (percent p);
  k2 ← eval (percent p);
  subprocess_call (combine_command ts tc k1 sampleReads1 k2 sampleReads2).

(** The world once the three commands of [simulateContamination] have run,
    for the integer percentage [k]. *)
Definition after_simulation
    (sampleReads1 sampleReads2 contaminantReads1 contaminantReads2 : string)
    (numOfSampleReads numOfContaminantReads seedNum k : Z) (w : world) : world :=
  after_call
    (combine_command (temp_sample k) (temp_contaminant k)
       k sampleReads1 k sampleReads2)
    (after_call
       (sample_command numOfContaminantReads (temp_contaminant k) seedNum
          contaminantReads1 contaminantReads2)
       (after_call
          (sample_command numOfSampleReads (temp_sample k) seedNum
             sampleReads1 sampleReads2)
          w)).

(** The four temporary files of the integer percentage [k], in the order
    in which the combining command removes them. *)
Definition temporary_files (k : Z) : list string :=
  [temp_sample k +:+ ".1.fastq"; temp_contaminant k +:+ ".1.fastq";
   temp_sample k +:+ ".2.fastq"; temp_contaminant k +:+ ".2.fastq"].

(** The body of [for prop in proportionContaminant:] and the loop. *)
Definition process_proportion
    (sampleReads1 sampleReads2 contaminantReads1 contaminantReads2 : string)
    (seedNum : option Z) (prop : spec_float) : M unit :=
  '(numOfLines, numOfSampleReads, numOfContaminantReads) ←
    calculateLinesRequired sampleReads1 contaminantReads1 prop;
  simulateContamination sampleReads1 sampleReads2
    contaminantReads1 contaminantReads2
    prop numOfSampleReads numOfContaminantReads seedNum;;
  mret tt.

Fixpoint for_each_proportion
    (sampleReads1 sampleReads2 contaminantReads1 contaminantReads2 : string)
    (seedNum : option Z) (props : list spec_float) : M unit :=
  match props with
  | [] => mret tt
  | prop :: rest =>
      process_proportion sampleReads1 sampleReads2
        contaminantReads1 contaminantReads2 seedNum prop;;
      for_each_proportion sampleReads1 sampleReads2
        contaminantReads1 contaminantReads2 seedNum rest
  end.

(** [x[0]], [x[1]] on an attribute that may be [None]. *)
Definition subscript {A} (x : option (A * A)) (i : bool) : M A :=
  match x with
  | None => raise TypeError
  | Some (a, b) => mret (if i then b else a)
  end.

(** The module body after argument parsing ("Main"). *)
Definition main (a : arguments) : M unit :=
  sampleReads1 ← subscript (sampleFiles a) false;
  sampleReads2 ← subscript (sampleFiles a) true;
  contaminantReads1 ← subscript (contaminantFiles a) false;
  contaminantReads2 ← subscript (contaminantFiles a) true;
  let seedNum := seed a in
  checkInputFiles sampleReads1 sampleReads2 contaminantReads1 contaminantReads2;;
  match proportionContaminant a with
  | None => raise TypeError
  | Some props =>
      for_each_proportion sampleReads1 sampleReads2
        contaminantReads1 contaminantReads2 seedNum props
  end.

End Script.

(** The lines the script can print, and the world after printing one. *)
Definition sample_mismatch : printed :=
  Printed "The 2 paired-end sample files provided have a different number of reads/lines." [].
Definition contaminant_mismatch : printed :=
  Printed "The 2 paired-end contamination files provided have different number of reads/lines." [].
Definition too_small (contaminantLines : Z) (p : spec_float) : printed :=
  Printed "Contamination file too small to provide the %d lines required for %f contamination."
          [VInt contaminantLines; VFloat p].

Definition say (w : world) (line : printed) : world :=
  {| files := files w; stdout := stdout w ++ [line]; issued := issued w |}.

(** A run from an initial file system: nothing printed, nothing issued. *)
Definition initial (fs : file_system) : world :=
  {| files := fs; stdout := []; issued := [] |}.

Definition run (shell : string → file_system → file_system * Z)
    (a : arguments) (fs : file_system) : outcome unit * world :=
  main shell a (initial fs).

(* ===================================================================== *)
(** * Part IV — a model of the environment *)
(* ===================================================================== *)

(** The shell and the tools are not part of the repository.  The statements
    on the contents of the output files need them, so this module gives the
    fragment of [/bin/sh], [cat], [rm] and [fastq-sample] that the issued
    command lines use:
    - a command line is split into words at spaces (no quoting, expansion or
      globbing: the model is exact for words made of plain characters);
    - [c1 && c2 && ...] runs the simple commands from the left and stops at
      the first non-zero status;
    - [cat f ... > out] creates or truncates [out], then appends the files
      in order; a text file being the list of its lines, this is exact when
      the files end with a newline, as those the sampler writes do;
    - [rm f ...] removes the files;
    - [fastq-sample -n N -o P -s S f1 f2] writes [P.1.fastq] and [P.2.fastq]
      (the external sampler of the specification, section 6).  Which reads
      it selects is left open: [pick] is a parameter. *)
Module Shell.

Definition is_blank (a : ascii) : bool := Ascii.eqb a " ".

(** [push w ws]: a word that ends here, unless it is empty. *)
Definition push (w : string) (ws : list string) : list string :=
  match w with "" => ws | _ => w :: ws end.

(** [scan s]: the characters of [s] before its first blank, and the words
    after it. *)
Fixpoint scan (s : string) : string * list string :=
  match s with
  | "" => ("", [])
  | String a s' =>
      let '(w, ws) := scan s' in
      if is_blank a then ("", push w ws) else (String a w, ws)
  end.

Definition words (s : string) : list string :=
  let '(w, ws) := scan s in push w ws.

(** [split_on sep ws]: the runs of [ws] between occurrences of [sep]. *)
Fixpoint split_on (sep : string) (ws : list string) : list (list string) :=
  match ws with
  | [] => [[]]
  | w :: ws' =>
      let r := split_on sep ws' in
      if String.eqb w sep then [] :: r
      else match r with
           | c :: cs => (w :: c) :: cs
           | [] => [[w]]
           end
  end.

(** The characters of a plain file name, and plain names: not empty, not
    starting with a dash (which a tool would read as an option), made of
    letters, digits, dots, underscores and dashes.  A plain name lives in
    the working directory. *)
Definition plain_char (a : ascii) : bool :=
  let n := N_of_ascii a in
  ((48 <=? n) && (n <=? 57) || (65 <=? n) && (n <=? 90)
   || (97 <=? n) && (n <=? 122)
   || (n =? 45) || (n =? 46) || (n =? 95))%N.

Fixpoint plain_chars (s : string) : bool :=
  match s with
  | "" => true
  | String a s' => plain_char a && plain_chars s'
  end.

Definition plain (s : string) : bool :=
  match s with
  | "" => false
  | String a _ => negb (Ascii.eqb a "-") && plain_chars s
  end.

(** Words: not empty and free of blanks; [unwords] joins words with single
    spaces. *)
Fixpoint blank_free (s : string) : bool :=
  match s with
  | "" => true
  | String a s' => negb (is_blank a) && blank_free s'
  end.

Definition is_word (s : string) : bool :=
  match s with "" => false | _ => blank_free s end.

Fixpoint unwords (ws : list string) : string :=
  match ws with
  | [] => ""
  | [w] => w
  | w :: ws' => w +:+ " " +:+ unwords ws'
  end.

Section Tools.

(** [pick seed n mate1 mate2]: the lines the sampler writes to the two
    output files when asked for [n] read pairs. *)
Variable pick : Z → Z → list string → list string → list string * list string.

Definition fastq_sample (argv : list string) (fs : file_system)
    : file_system * Z :=
  match argv with
  | [o1; n; o2; prefix; o3; s; file1; file2] =>
      if String.eqb o1 "-n" && String.eqb o2 "-o" && String.eqb o3 "-s" then
        match undec n, undec s, fs !! file1, fs !! file2 with
        | Some n, Some s, Some mate1, Some mate2 =>
            let '(r1, r2) := pick s n mate1 mate2 in
            (<[prefix +:+ ".2.fastq" := r2]>
               (<[prefix +:+ ".1.fastq" := r1]> fs), 0)
        | _, _, _, _ => (fs, 1)
        end
      else (fs, 1)
  | _ => (fs, 1)
  end.

(** [cat inputs > out]: an input that is the target itself is refused by
    [cat]; a missing input is skipped with status 1. *)
Definition cat_into (inputs : list string) (out : string)
    (fs : file_system) : file_system * Z :=
  let readable := filter (λ f, f ≠ out) inputs in
  let text := concat (omap (λ f, fs !! f) readable) in
  (<[out := text]> fs,
   if forallb (λ f, bool_decide (f ≠ out ∧ is_Some (fs !! f))) inputs
   then 0 else 1).

Fixpoint rm (names : list string) (fs : file_system) : file_system * Z :=
  match names with
  | [] => (fs, 0)
  | f :: rest =>
      let '(fs', rc) := rm rest (delete f fs) in
      (fs', if bool_decide (is_Some (fs !! f)) then rc else 1)
  end.

(** A simple command.  Only the forms the script issues are interpreted;
    anything else leaves the files alone and fails. *)
Definition simple (ws : list string) (fs : file_system) : file_system * Z :=
  match ws with
  | [] => (fs, 2)
  | prog :: argv =>
      if String.eqb prog "fastq-sample" then fastq_sample argv fs
      else if String.eqb prog "rm" then rm argv fs
      else if String.eqb prog "cat" then
        match split_on ">" argv with
        | [inputs; [out]] => cat_into inputs out fs
        | _ => (fs, 2)
        end
      else (fs, 127)
  end.

Fixpoint and_list (cmds : list (list string)) (fs : file_system)
    : file_system * Z :=
  match cmds with
  | [] => (fs, 0)
  | c :: rest =>
      let '(fs', rc) := simple c fs in
      match rest with
      | [] => (fs', rc)
      | _ => if rc =? 0 then and_list rest fs' else (fs', rc)
      end
  end.

(** [/bin/sh -c cmd]. *)
Definition sh (cmd : string) (fs : file_system) : file_system * Z :=
  and_list (split_on "&&" (words cmd)) fs.

End Tools.

(** A sampler for examples: the first [n] records of each mate (four
    lines per record), whatever the seed. *)
Definition pick_first (seed n : Z) (mate1 mate2 : list string)
    : list string * list string :=
  (take (Z.to_nat (4 * n)) mate1, take (Z.to_nat (4 * n)) mate2).

(** What [fastq-sample -n N] promises on mate files that hold at least [N]
    records: [N] records (four lines each) in each output file. *)
Definition writes_requested_reads
    (pick : Z → Z → list string → list string → list string * list string)
    : Prop :=
  ∀ seed n mate1 mate2,
    0 ≤ n → 4 * n ≤ Z.of_nat (length mate1) → length mate1 = length mate2 →
    length (pick seed n mate1 mate2).1 = Z.to_nat (4 * n)
    ∧ length (pick seed n mate1 mate2).2 = Z.to_nat (4 * n).

End Shell.

(* ===================================================================== *)
(** * Concrete inputs *)
(* ===================================================================== *)

(** Proportions as [float("...")] reads them (the nearest double), line
    files, and an environment in which every command succeeds and leaves
    the files alone. *)
Module Examples.

#[local] Set Warnings "-inexact-float".

Definition p_0_2 : spec_float := Eval vm_compute in Prim2SF 0.2%float.
Definition p_0_25 : spec_float := Eval vm_compute in Prim2SF 0.25%float.
Definition p_0_255 : spec_float := Eval vm_compute in Prim2SF 0.255%float.
Definition p_0_4375 : spec_float := Eval vm_compute in Prim2SF 0.4375%float.
Definition p_0_5 : spec_float := Eval vm_compute in Prim2SF 0.5%float.
Definition p_1_3 : spec_float := Eval vm_compute in Prim2SF 1.3%float.

(** A file of [n] lines. *)
Definition lines_of (n : nat) (text : string) : list string := replicate n text.

(** Four files [s_R1], [s_R2], [c_R1], [c_R2] with the given line counts. *)
Definition four_files (s1 s2 c1 c2 : nat) : file_system :=
  <["s_R1.fastq" := lines_of s1 "s1"]>
    (<["s_R2.fastq" := lines_of s2 "s2"]>
      (<["c_R1.fastq" := lines_of c1 "c1"]>
        (<["c_R2.fastq" := lines_of c2 "c2"]> ∅))).

Definition command_line (props : list spec_float) (s : Z) : arguments :=
  {| sampleFiles := Some ("s_R1.fastq", "s_R2.fastq");
     contaminantFiles := Some ("c_R1.fastq", "c_R2.fastq");
     proportionContaminant := Some props;
     seed := Some s |}.

Definition quiet (cmd : string) (fs : file_system) : file_system * Z := (fs, 0).

(** The two ends of the range, [float("0")] and [float("1")], and an
    environment in which no command is found (status 127). *)
Definition p_0 : spec_float := Eval vm_compute in Prim2SF 0%float.
Definition p_1 : spec_float := Eval vm_compute in Prim2SF 1%float.

Definition not_found (cmd : string) (fs : file_system) : file_system * Z :=
  (fs, 127).

(** An environment that answers like [quiet], except that a sampler
    invocation whose seed word is 6 fails and loses every file. *)
Definition seed_6_fails (cmd : string) (fs : file_system) : file_system * Z :=
  if bool_decide (Shell.words cmd !! 0%nat = Some "fastq-sample"
                  ∧ Shell.words cmd !! 6%nat = Some "6")
  then (∅, 1) else (fs, 0).

End Examples.

(* ===================================================================== *)
(** * Part V — lemmas and theorems *)
(* ===================================================================== *)

(** ** The monad *)

Ltac unfold_M :=
  unfold mbind, mret, M_mbind, M_mret, M_bind, M_ret, raise, sys_exit, eval,
    print in *.

Lemma bind_Ok {A B} (m : M A) (k : A → M B) w a w' :
  m w = (Ok a, w') → (m ≫= k) w = k a w'.
Proof. unfold_M. by intros ->. Qed.

Lemma bind_SysExit {A B} (m : M A) (k : A → M B) w c w' :
  m w = (SysExit c, w') → (m ≫= k) w = (SysExit c, w').
Proof. unfold_M. by intros ->. Qed.

Lemma bind_Uncaught {A B} (m : M A) (k : A → M B) w e w' :
  m w = (Uncaught e, w') → (m ≫= k) w = (Uncaught e, w').
Proof. unfold_M. by intros ->. Qed.

Lemma eval_inr {A} (r : exn + A) a w : r = inr a → eval r w = (Ok a, w).
Proof. by intros ->. Qed.

Section ScriptFacts.

Variable shell : string → file_system → file_system * Z.

Lemma countFileLines_Some f w lines :
  files w !! f = Some lines →
  countFileLines f w = (Ok (Z.of_nat (length lines)), w).
Proof. unfold countFileLines. by intros ->. Qed.

Lemma countFileLines_None f w :
  files w !! f = None → countFileLines f w = (Uncaught IOError, w).
Proof. unfold countFileLines. by intros ->. Qed.

(** *** [checkInputFiles] *)

Lemma checkInputFiles_sample_mismatch s1 s2 c1 c2 w S1 S2 :
  files w !! s1 = Some S1 → files w !! s2 = Some S2 →
  length S1 ≠ length S2 →
  checkInputFiles s1 s2 c1 c2 w = (SysExit None, say w sample_mismatch).
Proof.
  intros H1 H2 Hne. unfold checkInputFiles.
  rewrite (bind_Ok _ _ _ _ _ (countFileLines_Some _ _ _ H1)).
  rewrite (bind_Ok _ _ _ _ _ (countFileLines_Some _ _ _ H2)).
  destruct (Z.eqb_spec (Z.of_nat (length S1)) (Z.of_nat (length S2))) as [E|_];
    [lia|]. done.
Qed.

Lemma checkInputFiles_contaminant_mismatch s1 s2 c1 c2 w S1 S2 C1 C2 :
  files w !! s1 = Some S1 → files w !! s2 = Some S2 →
  files w !! c1 = Some C1 → files w !! c2 = Some C2 →
  length S1 = length S2 → length C1 ≠ length C2 →
  checkInputFiles s1 s2 c1 c2 w = (SysExit None, say w contaminant_mismatch).
Proof.
  intros H1 H2 H3 H4 He Hne. unfold checkInputFiles.
  rewrite (bind_Ok _ _ _ _ _ (countFileLines_Some _ _ _ H1)).
  rewrite (bind_Ok _ _ _ _ _ (countFileLines_Some _ _ _ H2)).
  rewrite He, Z.eqb_refl. simpl.
  erewrite bind_Ok; [|done].
  rewrite (bind_Ok _ _ _ _ _ (countFileLines_Some _ _ _ H3)).
  rewrite (bind_Ok _ _ _ _ _ (countFileLines_Some _ _ _ H4)).
  destruct (Z.eqb_spec (Z.of_nat (length C1)) (Z.of_nat (length C2))) as [E|_];
    [lia|]. done.
Qed.

Lemma checkInputFiles_pass s1 s2 c1 c2 w S1 S2 C1 C2 :
  files w !! s1 = Some S1 → files w !! s2 = Some S2 →
  files w !! c1 = Some C1 → files w !! c2 = Some C2 →
  length S1 = length S2 → length C1 = length C2 →
  checkInputFiles s1 s2 c1 c2 w = (Ok tt, w).
Proof.
  intros H1 H2 H3 H4 He He'. unfold checkInputFiles.
  rewrite (bind_Ok _ _ _ _ _ (countFileLines_Some _ _ _ H1)).
  rewrite (bind_Ok _ _ _ _ _ (countFileLines_Some _ _ _ H2)).
  rewrite He, Z.eqb_refl. simpl.
  erewrite bind_Ok; [|done].
  rewrite (bind_Ok _ _ _ _ _ (countFileLines_Some _ _ _ H3)).
  rewrite (bind_Ok _ _ _ _ _ (countFileLines_Some _ _ _ H4)).
  by rewrite He', Z.eqb_refl.
Qed.

(** [main] up to the loop, on a command line that names the four files. *)
Lemma main_unfold s1 s2 c1 c2 props sd w :
  main shell (Arguments (Some (s1, s2)) (Some (c1, c2)) props sd) w =
  (checkInputFiles s1 s2 c1 c2 ≫= λ _,
     match props with
     | None => raise TypeError
     | Some ps => for_each_proportion shell s1 s2 c1 c2 sd ps
     end) w.
Proof. done. Qed.

(** *** [calculateLinesRequired] *)

Lemma calculateLinesRequired_computed s1 c1 p w Ls Lc sl cl :
  files w !! s1 = Some Ls → files w !! c1 = Some Lc →
  numOfSampleLines (Z.of_nat (length Ls)) p = inr sl →
  numOfContaminantLines (Z.of_nat (length Ls)) p = inr cl →
  calculateLinesRequired s1 c1 p w =
    if Z.of_nat (length Lc) <? cl
    then (SysExit None, say w (too_small cl p))
    else (Ok (Z.of_nat (length Ls), sl / 4, cl / 4), w).
Proof.
  intros H1 H2 Hs Hc. unfold calculateLinesRequired.
  rewrite (bind_Ok _ _ _ _ _ (countFileLines_Some _ _ _ H1)).
  rewrite (bind_Ok _ _ _ _ _ (eval_inr _ _ _ Hs)).
  rewrite (bind_Ok _ _ _ _ _ (eval_inr _ _ _ Hc)).
  rewrite (bind_Ok _ _ _ _ _ (countFileLines_Some _ _ _ H2)).
  by destruct (_ <? _).
Qed.

(** *** [simulateContamination] *)

Lemma subprocess_call_after cmd w :
  subprocess_call shell cmd w =
    (Ok (shell cmd (files w)).2, after_call shell cmd w).
Proof.
  unfold subprocess_call, after_call. by destruct (shell cmd (files w)).
Qed.

Lemma simulateContamination_calls s1 s2 c1 c2 p ns nc sd k w :
  percent p = inr k →
  let w1 := after_call shell (sample_command ns (temp_sample k) sd s1 s2) w in
  let w2 :=
    after_call shell (sample_command nc (temp_contaminant k) sd c1 c2) w1 in
  let cmd :=
    combine_command (temp_sample k) (temp_contaminant k) k s1 k s2 in
  simulateContamination shell s1 s2 c1 c2 p ns nc (Some sd) w =
    (Ok (shell cmd (files w2)).2, after_call shell cmd w2).
Proof.
  intros Hk w1 w2 cmd. unfold simulateContamination, sampleFastqReads.
  rewrite (bind_Ok _ _ _ _ _ (eval_inr _ _ _ Hk)).
  rewrite (bind_Ok _ _ _ _ _ (eval_inr _ _ _ Hk)).
  rewrite (bind_Ok _ _ _ _ _ (subprocess_call_after _ _)).
  rewrite (bind_Ok _ _ _ _ _ (subprocess_call_after _ _)).
  rewrite (bind_Ok _ _ _ _ _ (eval_inr _ _ _ Hk)).
  rewrite (bind_Ok _ _ _ _ _ (eval_inr _ _ _ Hk)).
  apply subprocess_call_after.
Qed.

Lemma simulateContamination_after s1 s2 c1 c2 p ns nc sd k w :
  percent p = inr k →
  ∃ rc, simulateContamination shell s1 s2 c1 c2 p ns nc (Some sd) w =
          (Ok rc, after_simulation shell s1 s2 c1 c2 ns nc sd k w).
Proof.
  intros Hk. eexists. by rewrite (simulateContamination_calls _ _ _ _ _ _ _ _ _ _ Hk).
Qed.

Lemma after_simulation_issued s1 s2 c1 c2 ns nc sd k w :
  issued (after_simulation shell s1 s2 c1 c2 ns nc sd k w) =
    issued w ++
    [sample_command ns (temp_sample k) sd s1 s2;
     sample_command nc (temp_contaminant k) sd c1 c2;
     combine_command (temp_sample k) (temp_contaminant k) k s1 k s2].
Proof. unfold after_simulation, after_call. simpl. by rewrite <- !app_assoc. Qed.

Lemma after_simulation_stdout s1 s2 c1 c2 ns nc sd k w :
  stdout (after_simulation shell s1 s2 c1 c2 ns nc sd k w) = stdout w.
Proof. done. Qed.

Lemma simulateContamination_no_seed s1 s2 c1 c2 p ns nc k w :
  percent p = inr k →
  simulateContamination shell s1 s2 c1 c2 p ns nc None w =
    (Uncaught TypeError, w).
Proof.
  intros Hk. unfold simulateContamination, sampleFastqReads.
  rewrite (bind_Ok _ _ _ _ _ (eval_inr _ _ _ Hk)).
  rewrite (bind_Ok _ _ _ _ _ (eval_inr _ _ _ Hk)).
  done.
Qed.

(** *** The loop *)

Lemma process_proportion_exit s1 s2 c1 c2 sd p w c w' :
  calculateLinesRequired s1 c1 p w = (SysExit c, w') →
  process_proportion shell s1 s2 c1 c2 sd p w = (SysExit c, w').
Proof. intros H. unfold process_proportion. by rewrite (bind_SysExit _ _ _ _ _ H). Qed.

Lemma process_proportion_pass s1 s2 c1 c2 sd p w n ns nc :
  calculateLinesRequired s1 c1 p w = (Ok (n, ns, nc), w) →
  process_proportion shell s1 s2 c1 c2 sd p w =
    (simulateContamination shell s1 s2 c1 c2 p ns nc sd ≫= λ _, mret tt) w.
Proof. intros H. unfold process_proportion. by rewrite (bind_Ok _ _ _ _ _ H). Qed.

Lemma for_each_proportion_exit s1 s2 c1 c2 sd p rest w c w' :
  process_proportion shell s1 s2 c1 c2 sd p w = (SysExit c, w') →
  for_each_proportion shell s1 s2 c1 c2 sd (p :: rest) w = (SysExit c, w').
Proof. intros H. simpl. by rewrite (bind_SysExit _ _ _ _ _ H). Qed.

Lemma process_proportion_done s1 s2 c1 c2 sd p w Ls Lc sl cl k :
  files w !! s1 = Some Ls → files w !! c1 = Some Lc →
  numOfSampleLines (Z.of_nat (length Ls)) p = inr sl →
  numOfContaminantLines (Z.of_nat (length Ls)) p = inr cl →
  cl ≤ Z.of_nat (length Lc) →
  percent p = inr k →
  process_proportion shell s1 s2 c1 c2 (Some sd) p w =
    (Ok tt, after_simulation shell s1 s2 c1 c2 (sl / 4) (cl / 4) sd k w).
Proof.
  intros H1 H2 Hs Hc Hle Hk.
  pose proof (calculateLinesRequired_computed s1 c1 p w Ls Lc sl cl H1 H2 Hs Hc)
    as Hcalc.
  destruct (Z.ltb_spec (Z.of_nat (length Lc)) cl); [lia|].
  rewrite (process_proportion_pass _ _ _ _ _ _ _ _ _ _ Hcalc).
  destruct (simulateContamination_after s1 s2 c1 c2 p (sl / 4) (cl / 4) sd k w Hk)
    as [rc Hsim].
  by rewrite (bind_Ok _ _ _ _ _ Hsim).
Qed.

(** A call that returns leaves the world as it found it. *)
Lemma calculateLinesRequired_pure s1 c1 p w r w' :
  calculateLinesRequired s1 c1 p w = (Ok r, w') → w' = w.
Proof.
  unfold calculateLinesRequired, countFileLines. unfold_M.
  intros H. repeat case_match; unfold_M; by simplify_eq.
Qed.

Lemma process_proportion_after s1 s2 c1 c2 sd p w n ns nc w0 k :
  calculateLinesRequired s1 c1 p w = (Ok (n, ns, nc), w0) →
  percent p = inr k →
  process_proportion shell s1 s2 c1 c2 (Some sd) p w =
    (Ok tt, after_simulation shell s1 s2 c1 c2 ns nc sd k w).
Proof.
  intros Hcalc Hk.
  pose proof (calculateLinesRequired_pure _ _ _ _ _ _ Hcalc) as ->.
  rewrite (process_proportion_pass _ _ _ _ _ _ _ _ _ _ Hcalc).
  destruct (simulateContamination_after s1 s2 c1 c2 p ns nc sd k w Hk)
    as [rc Hsim].
  by rewrite (bind_Ok _ _ _ _ _ Hsim).
Qed.

Lemma sizing_failure s1 c1 p w Ls Lc sl cl :
  files w !! s1 = Some Ls → files w !! c1 = Some Lc →
  numOfSampleLines (Z.of_nat (length Ls)) p = inr sl →
  numOfContaminantLines (Z.of_nat (length Ls)) p = inr cl →
  Z.of_nat (length Lc) < cl →
  calculateLinesRequired s1 c1 p w = (SysExit None, say w (too_small cl p)).
Proof.
  intros H1 H2 Hs Hc Hlt.
  rewrite (calculateLinesRequired_computed s1 c1 p w Ls Lc sl cl H1 H2 Hs Hc).
  by destruct (Z.ltb_spec (Z.of_nat (length Lc)) cl); [|lia].
Qed.

End ScriptFacts.

(** The script depends on its environment only through what the commands
    do: two environments that answer alike give the same run. *)
Section SameEnvironment.

Variables shell shell' : string → file_system → file_system * Z.
Hypothesis same : ∀ cmd fs, shell cmd fs = shell' cmd fs.

Lemma subprocess_call_ext cmd w :
  subprocess_call shell cmd w = subprocess_call shell' cmd w.
Proof using same. unfold subprocess_call. by rewrite same. Qed.

Lemma bind_ext {A B} (m m' : M A) (k k' : A → M B) w :
  (∀ w, m w = m' w) → (∀ a w, k a w = k' a w) → (m ≫= k) w = (m' ≫= k') w.
Proof.
  intros Hm Hk. unfold mbind, M_mbind, M_bind. rewrite Hm.
  by destruct (m' w) as [[a|c|e] w1].
Qed.

Lemma sampleFastqReads_ext f1 f2 sd n pre w :
  sampleFastqReads shell f1 f2 sd n pre w =
  sampleFastqReads shell' f1 f2 sd n pre w.
Proof using same.
  unfold sampleFastqReads. destruct sd; [apply subprocess_call_ext|done].
Qed.

Lemma simulateContamination_ext s1 s2 c1 c2 p ns nc sd w :
  simulateContamination shell s1 s2 c1 c2 p ns nc sd w =
  simulateContamination shell' s1 s2 c1 c2 p ns nc sd w.
Proof using same.
  unfold simulateContamination.
  repeat (apply bind_ext; [done || apply sampleFastqReads_ext|]; intros).
  apply subprocess_call_ext.
Qed.

Lemma process_proportion_ext s1 s2 c1 c2 sd p w :
  process_proportion shell s1 s2 c1 c2 sd p w =
  process_proportion shell' s1 s2 c1 c2 sd p w.
Proof using same.
  unfold process_proportion. apply bind_ext; [done|].
  intros [[n ns] nc] w1. apply bind_ext; [|done].
  apply simulateContamination_ext.
Qed.

Lemma for_each_proportion_ext s1 s2 c1 c2 sd ps w :
  for_each_proportion shell s1 s2 c1 c2 sd ps w =
  for_each_proportion shell' s1 s2 c1 c2 sd ps w.
Proof using same.
  revert w. induction ps as [|p ps IH]; intros w; [done|]. simpl.
  apply bind_ext; [apply process_proportion_ext|]. intros _. apply IH.
Qed.

Lemma main_ext a w : main shell a w = main shell' a w.
Proof using same.
  unfold main.
  repeat (apply bind_ext; [done|]; intros).
  destruct (proportionContaminant a); [|done]. apply for_each_proportion_ext.
Qed.

End SameEnvironment.

Section Digits.

Lemma digits2_size p : digits2_pos p = Pos.size p.
Proof. induction p; simpl; congruence. Qed.

Lemma digits2_bounds p :
  2 ^ (Zpos (digits2_pos p) - 1) ≤ Zpos p < 2 ^ Zpos (digits2_pos p).
Proof.
  induction p as [p IH|p IH|]; simpl digits2_pos; [| |simpl; lia].
  all: rewrite Pos2Z.inj_succ;
    replace (Z.succ (Zpos (digits2_pos p)) - 1)
      with (Z.succ (Zpos (digits2_pos p) - 1)) by lia;
    rewrite !Z.pow_succ_r by lia;
    revert IH; generalize (2 ^ (Zpos (digits2_pos p) - 1));
    generalize (2 ^ Zpos (digits2_pos p)); intros; lia.
Qed.

Lemma Zdigits2_nonneg m : 0 ≤ Zdigits2 m.
Proof. destruct m; simpl; lia. Qed.

Lemma Zdigits2_below m U : 0 ≤ m → 0 ≤ U → m < 2 ^ U → Zdigits2 m ≤ U.
Proof.
  intros Hm HU Hlt. destruct m as [|p|p]; simpl; [lia| |lia].
  pose proof (digits2_bounds p) as [Hlo _].
  apply Z.lt_succ_r. rewrite <- Z.add_1_r.
  assert (2 ^ (Zpos (digits2_pos p) - 1) < 2 ^ U) as H by lia.
  apply Z.pow_lt_mono_r_iff in H; lia.
Qed.

Lemma Zdigits2_above p : Zpos p < 2 ^ Zdigits2 (Zpos p).
Proof. apply digits2_bounds. Qed.

Lemma Zdigits2_mono a b : 0 ≤ a ≤ b → Zdigits2 a ≤ Zdigits2 b.
Proof.
  intros [Ha Hab]. destruct b as [|q|q]; [by replace a with 0 by lia| |lia].
  apply Zdigits2_below; [done|apply Zdigits2_nonneg|].
  pose proof (Zdigits2_above q). lia.
Qed.

Lemma Zdigits2_succ m : 0 ≤ m → Zdigits2 (m + 1) ≤ Zdigits2 m + 1.
Proof.
  intros Hm. pose proof (Zdigits2_nonneg m).
  apply Zdigits2_below; [lia..|].
  rewrite Z.pow_add_r by lia. change (2 ^ 1) with 2.
  destruct m as [|q|q]; [done| |lia].
  pose proof (Zdigits2_above q). lia.
Qed.

Lemma digits2_mul p q :
  Zpos (digits2_pos (p * q)) ≤ Zpos (digits2_pos p) + Zpos (digits2_pos q).
Proof.
  change (Zdigits2 (Zpos (p * q)) ≤ Zpos (digits2_pos p) + Zpos (digits2_pos q)).
  apply Zdigits2_below; [lia..|].
  rewrite Z.pow_add_r by lia. rewrite Pos2Z.inj_mul.
  pose proof (digits2_bounds p) as [_ Hp]. pose proof (digits2_bounds q) as [_ Hq].
  revert Hp Hq. generalize (2 ^ Zpos (digits2_pos p)) (2 ^ Zpos (digits2_pos q)).
  intros; nia.
Qed.

Lemma digits2_iter_xO p d :
  Zpos (digits2_pos (Pos.iter xO p d)) = Zpos (digits2_pos p) + Zpos d.
Proof.
  induction d as [|d IH] using Pos.peano_ind.
  - simpl. lia.
  - rewrite Pos.iter_succ. simpl digits2_pos. lia.
Qed.

Lemma iter_xO_value p d : Zpos (Pos.iter xO p d) = Zpos p * 2 ^ Zpos d.
Proof.
  induction d as [|d IH] using Pos.peano_ind.
  - simpl. lia.
  - rewrite Pos.iter_succ, Pos2Z.inj_xO, IH, Pos2Z.inj_succ, Z.pow_succ_r by lia.
    lia.
Qed.

(** One right shift drops one digit of a non-negative mantissa. *)
Lemma shr_1_digits r :
  0 ≤ shr_m r →
  0 ≤ shr_m (shr_1 r) ∧
  Zdigits2 (shr_m (shr_1 r)) = Z.max (Zdigits2 (shr_m r) - 1) 0.
Proof.
  destruct r as [m r s]; simpl. intros Hm.
  destruct m as [|[q|q|]|q]; simpl; lia.
Qed.


Lemma iter_shr_1_digits k r :
  0 ≤ shr_m r →
  0 ≤ shr_m (SpecFloat.iter_pos shr_1 k r) ∧
  Zdigits2 (shr_m (SpecFloat.iter_pos shr_1 k r)) = Z.max (Zdigits2 (shr_m r) - Zpos k) 0.
Proof.
  revert r. induction k as [k IH|k IH|]; intros r Hr; simpl SpecFloat.iter_pos.
  - destruct (shr_1_digits r Hr) as [H0 E0].
    destruct (IH _ H0) as [H1 E1]. destruct (IH _ H1) as [H2 E2].
    split; [done|]. rewrite E2, E1, E0. lia.
  - destruct (IH _ Hr) as [H1 E1]. destruct (IH _ H1) as [H2 E2].
    split; [done|]. rewrite E2, E1. lia.
  - apply shr_1_digits, Hr.
Qed.

(** What [shr_fexp] returns: a non-negative mantissa whose top bit, and
    whose exponent, stay below the top bit of the argument (or the least
    exponent). *)
Lemma shr_fexp_bound m e l :
  0 ≤ m →
  let r := shr_fexp PyFloat.prec PyFloat.emax m e l in
  let top := Z.max (Zdigits2 m + e) (-1074) in
  0 ≤ shr_m r.1 ∧ r.2 ≤ top ∧ Zdigits2 (shr_m r.1) + r.2 ≤ top.
Proof.
  intros Hm. unfold shr_fexp, shr, fexp, emin, PyFloat.prec, PyFloat.emax.
  pose proof (Zdigits2_nonneg m) as Hd.
  assert (shr_m (shr_record_of_loc m l) = m) as Em by (by destruct l as [|[]]).
  destruct (Z.max (Zdigits2 m + e - 53) (3 - 1024 - 53) - e) as [|k|k] eqn:Ek;
    simpl; rewrite ?Em; [lia| |lia].
  destruct (iter_shr_1_digits k (shr_record_of_loc m l)) as [H0 E0];
    [by rewrite Em|].
  rewrite Em in E0. rewrite E0. lia.
Qed.

Lemma round_nearest_even_bound m l :
  0 ≤ m →
  0 ≤ round_nearest_even m l ∧
  Zdigits2 (round_nearest_even m l) ≤ Zdigits2 m + 1.
Proof.
  intros Hm. pose proof (Zdigits2_succ m Hm).
  unfold round_nearest_even.
  destruct l as [|[]]; try destruct (Z.even m); split; lia.
Qed.

(** Rounding a non-negative mantissa whose top bit is well below the
    overflow threshold gives a zero or a finite double of the same sign. *)
Lemma binary_round_aux_bound s m e l :
  0 ≤ m → Zdigits2 m + e ≤ 970 →
  PyFloat.nonneg_below s (Z.max (Zdigits2 m + e) (-1074) + 1)
    (binary_round_aux PyFloat.prec PyFloat.emax s m e l).
Proof.
  intros Hm Hd. unfold binary_round_aux.
  pose proof (shr_fexp_bound m e l Hm) as H1. simpl in H1.
  destruct (shr_fexp _ _ m e l) as [mrs' e'] eqn:E1. simpl in H1.
  destruct H1 as (H1a & H1b & H1c).
  destruct (round_nearest_even_bound (shr_m mrs') (loc_of_shr_record mrs') H1a)
    as [H2a H2b].
  pose proof (shr_fexp_bound _ e' loc_Exact H2a) as H3. simpl in H3.
  destruct (shr_fexp _ _ _ e' loc_Exact) as [mrs'' e''] eqn:E2. simpl in H3.
  destruct H3 as (H3a & H3b & H3c).
  destruct (shr_m mrs'') as [|q|q] eqn:Eq; [done| |lia].
  unfold PyFloat.prec, PyFloat.emax.
  destruct (Z.leb_spec e'' (1024 - 53)) as [_|Hbig]; [|lia].
  split; [done|]. simpl in H3c. lia.
Qed.

Lemma shl_align_digits mx ex ex' :
  let r := shl_align mx ex ex' in
  Zpos (digits2_pos r.1) + r.2 = Zpos (digits2_pos mx) + ex.
Proof.
  unfold shl_align. destruct (ex' - ex) as [|d|d] eqn:Ed; simpl; [done..|].
  rewrite digits2_iter_xO. lia.
Qed.

Lemma shl_align_value mx ex ex' :
  ex' ≤ ex → Zpos (shl_align mx ex ex').1 = Zpos mx * 2 ^ (ex - ex').
Proof.
  intros Hle. unfold shl_align.
  destruct (ex' - ex) as [|d|d] eqn:Ed; simpl.
  - replace (ex - ex') with 0 by lia. simpl. lia.
  - lia.
  - rewrite iter_xO_value. by replace (ex - ex') with (Zpos d) by lia.
Qed.

Lemma binary_round_bound s mx ex :
  Zpos (digits2_pos mx) + ex ≤ 970 →
  PyFloat.nonneg_below s (Z.max (Zpos (digits2_pos mx) + ex) (-1074) + 1)
    (binary_round PyFloat.prec PyFloat.emax s mx ex).
Proof.
  intros Hd. unfold binary_round.
  pose proof (shl_align_digits mx ex
    (fexp PyFloat.prec PyFloat.emax (Zpos (digits2_pos mx) + ex))) as Hal.
  destruct (shl_align mx ex _) as [mz ez]. simpl in Hal.
  rewrite <- Hal. apply binary_round_aux_bound; simpl; lia.
Qed.

Lemma nonneg_below_weaken s U V x :
  U ≤ V → PyFloat.nonneg_below s U x → PyFloat.nonneg_below s V x.
Proof. intros HUV. destruct x as [| | |s' m e]; simpl; try done. intros [-> ?]. split; [done|lia]. Qed.

(** [float(n)] of a line count. *)
Lemma of_int_bound n :
  0 ≤ n < 2 ^ 63 → PyFloat.nonneg_below false 64 (PyFloat.of_int n).
Proof.
  intros [Hn Hlt]. unfold PyFloat.of_int, binary_normalize.
  destruct n as [|q|q]; [done| |lia].
  assert (Zpos (digits2_pos q) ≤ 63) as Hq
    by (apply (Zdigits2_below (Zpos q)); lia).
  eapply nonneg_below_weaken; [|apply binary_round_bound; lia]. lia.
Qed.

Lemma of_int_1 : PyFloat.of_int 1 = S754_finite false 4503599627370496 (-52).
Proof. vm_compute. reflexivity. Qed.

Lemma pow2_52 : 2 ^ 52 = 4503599627370496.
Proof. vm_compute. reflexivity. Qed.

Lemma valid_mantissa s m e :
  PyFloat.valid (S754_finite s m e) = true → Zpos m < 2 ^ 53.
Proof.
  unfold PyFloat.valid, SpecFloat.valid_binary, bounded, canonical_mantissa,
    fexp, emin, PyFloat.prec, PyFloat.emax.
  intros Hv. apply andb_prop in Hv as [Hc _]. apply Z.eqb_eq in Hc.
  assert (Zpos (digits2_pos m) ≤ 53) as Hdig by lia.
  pose proof (digits2_bounds m) as [_ Hm].
  eapply Z.lt_le_trans; [exact Hm|]. apply Z.pow_le_mono_r; lia.
Qed.

Lemma leb_one_finite m e :
  PyFloat.leb (S754_finite false m e) (PyFloat.of_int 1) = true →
  e < -52 ∨ e = -52 ∧ Zpos m ≤ 2 ^ 52.
Proof.
  rewrite of_int_1, pow2_52. unfold PyFloat.leb, SFleb, SFcompare.
  destruct (Z.compare_spec e (-52)) as [->|Hlt|Hgt]; [|by left|done].
  rewrite Pos.compare_cont_spec. unfold Pos.switch_Eq.
  rewrite Pos2Z.inj_compare.
  destruct (Z.compare_spec (Zpos m) (Zpos 4503599627370496));
    intros Hb; [right|right|done]; (split; [done|lia]).
Qed.

(** A well-formed double in [[0, 1]]. *)
Lemma unit_interval_bound p :
  PyFloat.valid p = true →
  PyFloat.leb (PyFloat.of_int 0) p = true →
  PyFloat.leb p (PyFloat.of_int 1) = true →
  match p with
  | S754_zero _ => True
  | S754_finite s m e => s = false ∧ e ≤ -52 ∧ Zpos m ≤ 2 ^ (- e)
  | _ => False
  end.
Proof.
  intros Hv H0 H1. destruct p as [s|s| |s m e]; try done.
  - by destruct s.
  - destruct s; [done|]. split; [done|].
    pose proof (valid_mantissa _ _ _ Hv) as Hm53.
    destruct (leb_one_finite _ _ H1) as [Hlt|[-> Hm]].
    + split; [lia|].
      eapply Z.le_trans; [apply Z.lt_le_incl, Hm53|].
      apply Z.pow_le_mono_r; lia.
    + split; [done|]. exact Hm.
Qed.

Lemma sub_one_bound p :
  PyFloat.valid p = true →
  PyFloat.leb (PyFloat.of_int 0) p = true →
  PyFloat.leb p (PyFloat.of_int 1) = true →
  PyFloat.nonneg_below false 2 (PyFloat.sub (PyFloat.of_int 1) p).
Proof.
  intros Hv H0 H1. pose proof (unit_interval_bound p Hv H0 H1) as Hp.
  destruct p as [s|s| |s m e]; try done.
  destruct Hp as (-> & He & Hm). rewrite of_int_1.
    unfold PyFloat.sub, SFsub. rewrite (Z.min_r (-52) e) by lia.
    unfold cond_Zopp.
    rewrite (shl_align_value _ (-52) e) by lia.
    rewrite (shl_align_value m e e) by lia.
    replace (e - e) with 0 by lia. rewrite Z.mul_1_r.
    rewrite <- pow2_52.
    rewrite <- Z.pow_add_r by lia. replace (52 + (-52 - e)) with (- e) by lia.
    unfold binary_normalize.
    destruct (2 ^ (- e) - Zpos m) as [|q|q] eqn:Eq; [done| |lia].
    assert (Zpos (digits2_pos q) ≤ - e + 1) as Hq.
    { apply (Zdigits2_below (Zpos q)); [lia..|].
      rewrite Z.pow_add_r by lia. change (2 ^ 1) with 2.
      revert Eq. generalize (2 ^ (- e)). intros; lia. }
    eapply nonneg_below_weaken; [|apply binary_round_bound; lia]. lia.
Qed.

Lemma unit_interval_below p :
  PyFloat.valid p = true →
  PyFloat.leb (PyFloat.of_int 0) p = true →
  PyFloat.leb p (PyFloat.of_int 1) = true →
  PyFloat.nonneg_below false 1 p.
Proof.
  intros Hv H0 H1. pose proof (unit_interval_bound p Hv H0 H1) as Hp.
  destruct p as [s|s| |s m e]; try done.
  destruct Hp as (-> & He & Hm). split; [done|].
  assert (Zpos (digits2_pos m) ≤ - e + 1); [|lia].
  apply (Zdigits2_below (Zpos m)); [lia..|].
  rewrite Z.pow_add_r by lia. change (2 ^ 1) with 2.
  revert Hm. generalize (2 ^ (- e)). intros; lia.
Qed.

Lemma mul_bound U V x y :
  PyFloat.nonneg_below false U x → PyFloat.nonneg_below false V y →
  U + V ≤ 970 →
  PyFloat.nonneg_below false (Z.max (U + V) (-1074) + 1) (PyFloat.mul x y).
Proof.
  intros Hx Hy HUV.
  destruct x as [sx|sx| |sx mx ex], y as [sy|sy| |sy my ey]; try done.
  destruct Hx as [-> Hx], Hy as [-> Hy]. unfold PyFloat.mul, SFmul. simpl xorb.
  pose proof (digits2_mul mx my) as Hd.
  eapply nonneg_below_weaken;
    [|apply binary_round_aux_bound; [lia|simpl; lia]].
  simpl. lia.
Qed.

End Digits.


Section Rounding.

Local Open Scope Q_scope.

Lemma Qpower2_pos e : 0 < Qpower (2 # 1) e.
Proof. apply Qpower_0_lt. reflexivity. Qed.

(** The integral part of [m * 2^e] for a positive mantissa. *)
Lemma Qfloor_scaled m e :
  Qfloor (inject_Z (Zpos m) * Qpower (2 # 1) e) = Z.shiftl (Zpos m) e.
Proof.
  destruct e as [|k|k].
  - simpl Qpower. rewrite Qmult_1_r. rewrite Qfloor_Z. by rewrite Z.shiftl_0_r.
  - rewrite Z.shiftl_mul_pow2 by lia.
    assert (Qpower (2 # 1) (Zpos k) == inject_Z (2 ^ Zpos k)) as ->.
    { symmetry. apply (Zpower_Qpower 2 (Zpos k)). lia. }
    rewrite <- inject_Z_mult. apply Qfloor_Z.
  - change (Z.shiftl (Zpos m) (Zneg k)) with (Z.shiftr (Zpos m) (Zpos k)).
    rewrite Z.shiftr_div_pow2 by lia. rewrite Zdiv_Qdiv.
    apply Qfloor_comp. unfold Qdiv. apply Qmult_comp; [reflexivity|].
    change (Qpower (2 # 1) (Zneg k)) with (/ Qpower (2 # 1) (Zpos k)).
    apply Qinv_comp. symmetry. apply (Zpower_Qpower 2 (Zpos k)). lia.
Qed.

Lemma scaled_nonneg m e : 0 <= inject_Z (Zpos m) * Qpower (2 # 1) e.
Proof.
  apply Qmult_le_0_compat; [|apply Qlt_le_weak, Qpower2_pos].
  change 0 with (inject_Z 0). rewrite <- Zle_Qle. lia.
Qed.

Lemma scaled_pos m e : 0 < inject_Z (Zpos m) * Qpower (2 # 1) e.
Proof.
  apply Qmult_lt_0_compat; [|apply Qpower2_pos].
  change 0 with (inject_Z 0). rewrite <- Zlt_Qlt. lia.
Qed.

Lemma scaled_opp m e :
  inject_Z (Zneg m) * Qpower (2 # 1) e
  == - (inject_Z (Zpos m) * Qpower (2 # 1) e).
Proof. change (Zneg m) with (- Zpos m)%Z. rewrite inject_Z_opp. ring. Qed.

Lemma scaled_neg m e : inject_Z (Zneg m) * Qpower (2 # 1) e < 0.
Proof.
  rewrite scaled_opp. apply (Qopp_lt_compat 0). apply scaled_pos.
Qed.

Lemma Qtruncate_scaled s m e :
  PyFloat.Qtruncate (inject_Z (cond_Zopp s (Zpos m)) * Qpower (2 # 1) e)
  = cond_Zopp s (Z.shiftl (Zpos m) e).
Proof.
  unfold PyFloat.Qtruncate. destruct s; unfold cond_Zopp.
  - change (- Zpos m)%Z with (Zneg m).
    destruct (Qle_bool 0 (inject_Z (Zneg m) * Qpower (2 # 1) e)) eqn:Hb.
    + apply Qle_bool_iff in Hb. exfalso.
      apply (Qlt_irrefl 0). eapply Qle_lt_trans; [exact Hb|apply scaled_neg].
    + unfold Qceiling.
      rewrite (Qfloor_comp _ (inject_Z (Zpos m) * Qpower (2 # 1) e)).
      * by rewrite Qfloor_scaled.
      * rewrite scaled_opp. apply Qopp_involutive.
  - destruct (Qle_bool 0 (inject_Z (Zpos m) * Qpower (2 # 1) e)) eqn:Hb.
    + apply Qfloor_scaled.
    + pose proof (scaled_nonneg m e) as Hge.
      apply Qle_bool_iff in Hge. congruence.
Qed.

(** [int()] is truncation toward zero of the denoted value, and raises
    exactly on the doubles that denote no number. *)
Lemma to_int_truncate x :
  match PyFloat.to_int x with
  | inr z => PyFloat.truncate x = Some z
  | inl _ => PyFloat.truncate x = None
  end.
Proof.
  destruct x as [s|s| |s m e]; try done.
  unfold PyFloat.to_int, PyFloat.truncate, PyFloat.value.
  cbn [fmap option_fmap option_map]. f_equal. apply Qtruncate_scaled.
Qed.

(** On a zero or a positive double [int()] is the floor, and it is not
    negative. *)
Lemma to_int_floor U x :
  PyFloat.nonneg_below false U x →
  ∃ z, PyFloat.to_int x = inr z ∧ PyFloat.floor x = Some z ∧ (0 ≤ z)%Z.
Proof.
  destruct x as [s|s| |s m e]; simpl; try done.
  - intros _. exists 0%Z. done.
  - intros [-> _]. exists (Z.shiftl (Zpos m) e). split; [done|]. split.
    + unfold PyFloat.floor. simpl. f_equal. apply Qfloor_scaled.
    + apply Z.shiftl_nonneg. lia.
Qed.

End Rounding.

(** ** Line counts that convert *)

(** A line count whose double is a zero or finite converts without error:
    the two counts are then the [int()] of the products. *)
Lemma numOfSampleLines_finite s U n p :
  PyFloat.nonneg_below s U (PyFloat.of_int n) →
  numOfSampleLines n p =
    PyFloat.to_int
      (PyFloat.mul (PyFloat.of_int n) (PyFloat.sub (PyFloat.of_int 1) p)).
Proof.
  unfold numOfSampleLines, PyFloat.float_of_int.
  by destruct (PyFloat.of_int n).
Qed.

Lemma numOfContaminantLines_finite s U n p :
  PyFloat.nonneg_below s U (PyFloat.of_int n) →
  numOfContaminantLines n p =
    PyFloat.to_int (PyFloat.mul (PyFloat.of_int n) p).
Proof.
  unfold numOfContaminantLines, PyFloat.float_of_int.
  by destruct (PyFloat.of_int n).
Qed.

(** ** Exact cases: multiplying a line count by 0.5 *)

Section Exact.

Lemma digits2_unique p a :
  2 ^ (a - 1) ≤ Zpos p < 2 ^ a → Zpos (digits2_pos p) = a.
Proof.
  intros [Hlo Hhi].
  assert (0 < a) as Ha.
  { destruct (Z.lt_trichotomy a 0) as [Hn|[->|?]]; [|simpl in Hhi; lia|done].
    rewrite (Z.pow_neg_r 2 a) in Hhi by done. lia. }
  apply Z.le_antisymm.
  - apply (Zdigits2_below (Zpos p)); lia.
  - pose proof (digits2_bounds p) as [_ Hd].
    assert (2 ^ (a - 1) < 2 ^ Zpos (digits2_pos p)) as H by lia.
    apply Z.pow_lt_mono_r_iff in H; lia.
Qed.

(** A mantissa of at most 53 bits at an exponent in range is not shifted. *)
Lemma shr_fexp_fits m e l :
  Zpos (digits2_pos m) ≤ 53 → -1074 ≤ e →
  shr_fexp PyFloat.prec PyFloat.emax (Zpos m) e l
  = (shr_record_of_loc (Zpos m) l, e).
Proof.
  intros Hd He. unfold shr_fexp, shr, fexp, emin, PyFloat.prec, PyFloat.emax.
  simpl Zdigits2.
  destruct (Z.max (Zpos (digits2_pos m) + e - 53) (3 - 1024 - 53) - e)
    as [|k|k] eqn:Ek; [done|lia|done].
Qed.

Lemma binary_round_aux_exact s m e :
  Zpos (digits2_pos m) ≤ 53 → -1074 ≤ e ≤ 971 →
  binary_round_aux PyFloat.prec PyFloat.emax s (Zpos m) e loc_Exact
  = S754_finite s m e.
Proof.
  intros Hd He. unfold binary_round_aux.
  rewrite shr_fexp_fits by lia. cbn [shr_record_of_loc shr_m loc_of_shr_record
    round_nearest_even].
  rewrite shr_fexp_fits by lia. cbn [shr_record_of_loc shr_m].
  unfold PyFloat.prec, PyFloat.emax.
  by destruct (Z.leb_spec e (1024 - 53)); [|lia].
Qed.

Lemma iter_shr_1_exact k m :
  SpecFloat.iter_pos shr_1 k
    {| shr_m := Zpos (Pos.iter xO m k); shr_r := false; shr_s := false |}
  = {| shr_m := Zpos m; shr_r := false; shr_s := false |}.
Proof.
  revert m. induction k as [k IH|k IH|]; intros m; simpl; [|by rewrite !IH|done].
  by rewrite !IH.
Qed.

(** A 53-bit mantissa followed by [k] zero bits rounds to itself. *)
Lemma binary_round_aux_shift s m e k :
  Zpos (digits2_pos m) = 53 → -1074 ≤ e + Zpos k ≤ 971 →
  binary_round_aux PyFloat.prec PyFloat.emax s (Zpos (Pos.iter xO m k)) e
    loc_Exact
  = S754_finite s m (e + Zpos k).
Proof.
  intros Hd He.
  pose proof (binary_round_aux_exact s m (e + Zpos k) ltac:(lia) He) as Hx.
  unfold binary_round_aux in *.
  rewrite shr_fexp_fits in Hx by lia.
  cbn [shr_record_of_loc shr_m loc_of_shr_record round_nearest_even] in Hx.
  assert (shr_fexp PyFloat.prec PyFloat.emax (Zpos (Pos.iter xO m k)) e loc_Exact
          = ({| shr_m := Zpos m; shr_r := false; shr_s := false |}, e + Zpos k))
    as ->; [|done].
  unfold shr_fexp, shr, fexp, emin, PyFloat.prec, PyFloat.emax.
  simpl Zdigits2. rewrite digits2_iter_xO, Hd.
  replace (Z.max (53 + Zpos k + e - 53) (3 - 1024 - 53) - e) with (Zpos k)
    by lia.
  cbn [shr_record_of_loc]. by rewrite iter_shr_1_exact.
Qed.

(** [float(n)] is exact below [2^53]. *)
Lemma of_int_exact n :
  0 < n < 2 ^ 53 →
  ∃ m e, PyFloat.of_int n = S754_finite false m e
         ∧ Zpos (digits2_pos m) = 53 ∧ -52 ≤ e ≤ 0
         ∧ Zpos m = n * 2 ^ (- e).
Proof.
  intros [Hn Hlt]. destruct n as [|q|q]; [lia| |lia].
  assert (1 ≤ Zpos (digits2_pos q) ≤ 53) as Hd.
  { split; [lia|]. apply (Zdigits2_below (Zpos q)); lia. }
  unfold PyFloat.of_int, binary_normalize, binary_round, shl_align, fexp, emin,
    PyFloat.prec, PyFloat.emax.
  destruct (Z.max (Zpos (digits2_pos q) + 0 - 53) (3 - 1024 - 53) - 0)
    as [|t|t] eqn:Et.
  - exists q, 0. split; [apply binary_round_aux_exact; lia|].
    split; [lia|]. split; [lia|]. simpl. lia.
  - lia.
  - exists (Pos.iter xO q t), (Z.max (Zpos (digits2_pos q) + 0 - 53) (3 - 1024 - 53)).
    split.
    { apply binary_round_aux_exact; [rewrite digits2_iter_xO|]; lia. }
    split; [rewrite digits2_iter_xO; lia|]. split; [lia|].
    rewrite iter_xO_value. f_equal. f_equal. lia.
Qed.

Lemma p_0_5_value : Examples.p_0_5 = S754_finite false 4503599627370496 (-53).
Proof. vm_compute. reflexivity. Qed.

(** [int(n * 0.5)] is [n // 2] for every line count below [2^53]. *)
Lemma half_exact n :
  0 ≤ n < 2 ^ 53 →
  PyFloat.to_int (PyFloat.mul (PyFloat.of_int n) Examples.p_0_5) = inr (n / 2).
Proof.
  intros [Hn Hlt]. destruct (decide (n = 0)) as [->|Hnz]; [done|].
  destruct (of_int_exact n ltac:(lia)) as (m & e & -> & Hd & He & Hm).
  rewrite p_0_5_value. unfold PyFloat.mul, SFmul. cbn [xorb].
  assert ((m * 4503599627370496)%positive = Pos.iter xO m 52) as ->.
  { apply Pos2Z.inj. rewrite Pos2Z.inj_mul, iter_xO_value. by rewrite pow2_52. }
  rewrite binary_round_aux_shift by lia.
  unfold PyFloat.to_int, cond_Zopp. f_equal.
  replace (e + -53 + 52) with (- (- e + 1)) by lia.
  rewrite <- Z.shiftr_opp_r, Z.opp_involutive, Z.shiftr_div_pow2 by lia.
  rewrite Hm, Z.pow_add_r by lia. change (2 ^ 1) with 2.
  rewrite (Z.mul_comm (2 ^ (- e)) 2).
  rewrite Z.div_mul_cancel_r; [done|lia|].
  apply Z.pow_nonzero; lia.
Qed.

Lemma one_minus_half :
  PyFloat.sub (PyFloat.of_int 1) Examples.p_0_5 = Examples.p_0_5.
Proof. vm_compute. reflexivity. Qed.

Lemma half_lines n :
  0 ≤ n < 2 ^ 53 →
  numOfSampleLines n Examples.p_0_5 = inr (n / 2)
  ∧ numOfContaminantLines n Examples.p_0_5 = inr (n / 2).
Proof.
  intros Hn.
  pose proof (of_int_bound n ltac:(lia)) as Bn.
  rewrite (numOfSampleLines_finite _ _ _ _ Bn).
  rewrite (numOfContaminantLines_finite _ _ _ _ Bn).
  rewrite one_minus_half. split; by apply half_exact.
Qed.

End Exact.

(** ** Decimal rendering and names *)

Section Names.

Lemma numeric_uint d : numeric (NilEmpty.string_of_uint d) = true.
Proof. induction d; simpl; by rewrite ?IHd. Qed.

Lemma numeric_dec n : numeric (dec n) = true.
Proof.
  unfold dec, NilZero.string_of_int, NilZero.string_of_uint.
  destruct (Z.to_int n) as [d|d]; destruct d; try done;
    apply (numeric_uint (_ _)) || (simpl; apply (numeric_uint _)).
Qed.

Lemma dec_nonempty n : dec n ≠ "".
Proof.
  unfold dec, NilZero.string_of_int, NilZero.string_of_uint.
  destruct (Z.to_int n) as [d|d]; destruct d; done.
Qed.

Lemma undec_dec n : undec (dec n) = Some n.
Proof.
  unfold undec, dec. rewrite NilZero.isi.
  - simpl. f_equal. apply DecimalZ.of_to.
  - destruct n; simpl; try done.
    intros [= H]. by apply DecimalPos.Unsigned.to_uint_nonnil in H.
  - destruct n; simpl; try done.
    intros [= H]. by apply DecimalPos.Unsigned.to_uint_nonnil in H.
Qed.

Lemma dec_inj a b : dec a = dec b → a = b.
Proof.
  intros H. apply (f_equal undec) in H. rewrite !undec_dec in H. by simplify_eq.
Qed.

(** Two numerals followed by an underscore agree as soon as the whole
    strings do: the underscore is no numeral character. *)
Lemma numeric_prefix_inj a b r r' :
  numeric a = true → numeric b = true →
  a +:+ String "_" r = b +:+ String "_" r' → a = b.
Proof.
  revert b. induction a as [|x a IH]; intros [|y b] Ha Hb E; simpl in *.
  - done.
  - by simplify_eq.
  - by simplify_eq.
  - apply andb_prop in Ha as [_ Ha]. apply andb_prop in Hb as [_ Hb].
    simplify_eq. f_equal. by apply IH.
Qed.

Lemma output_name_inj k k' f f' :
  output_name k f = output_name k' f' → k = k'.
Proof.
  unfold output_name. intros E. simplify_eq/=.
  apply dec_inj. eapply numeric_prefix_inj; eauto using numeric_dec.
Qed.

Lemma temp_sample_inj k k' : temp_sample k = temp_sample k' → k = k'.
Proof. unfold temp_sample. intros E. simplify_eq/=. by apply dec_inj. Qed.

Lemma temp_contaminant_inj k k' :
  temp_contaminant k = temp_contaminant k' → k = k'.
Proof. unfold temp_contaminant. intros E. simplify_eq/=. by apply dec_inj. Qed.

End Names.

(* ===================================================================== *)
(** * The claims *)
(* ===================================================================== *)

Section Claims.

Variable shell : string → file_system → file_system * Z.

(** ** Validation ([checkInputFiles]) *)

(** C3. For four input files: when the two sample files differ in line
    count the run prints the sample-pair message and stops; when they agree
    and the two contaminant files differ it prints the contaminant-pair
    message and stops; in both cases no command has been issued and the
    files are untouched.  When both pairs agree validation passes and the
    run goes on with the loop over the proportions. *)
Theorem checkInputFiles_validates s1 s2 c1 c2 props sd fs S1 S2 C1 C2 :
  fs !! s1 = Some S1 → fs !! s2 = Some S2 →
  fs !! c1 = Some C1 → fs !! c2 = Some C2 →
  let a := Arguments (Some (s1, s2)) (Some (c1, c2)) props sd in
  (length S1 ≠ length S2 →
     ∃ w, run shell a fs = (SysExit None, w) ∧
          stdout w = [sample_mismatch] ∧ issued w = [] ∧ files w = fs)
  ∧ (length S1 = length S2 → length C1 ≠ length C2 →
     ∃ w, run shell a fs = (SysExit None, w) ∧
          stdout w = [contaminant_mismatch] ∧ issued w = [] ∧ files w = fs)
  ∧ (length S1 = length S2 → length C1 = length C2 →
     checkInputFiles s1 s2 c1 c2 (initial fs) = (Ok tt, initial fs) ∧
     run shell a fs =
       match props with
       | None => (Uncaught TypeError, initial fs)
       | Some ps => for_each_proportion shell s1 s2 c1 c2 sd ps (initial fs)
       end).
Proof.
  intros H1 H2 H3 H4 a. unfold run, a. split; [|split].
  - intros Hne. eexists. rewrite main_unfold.
    rewrite (bind_SysExit _ _ _ _ _
      (checkInputFiles_sample_mismatch s1 s2 c1 c2 (initial fs) S1 S2 H1 H2 Hne)).
    done.
  - intros He Hne. eexists. rewrite main_unfold.
    rewrite (bind_SysExit _ _ _ _ _
      (checkInputFiles_contaminant_mismatch s1 s2 c1 c2 (initial fs)
         S1 S2 C1 C2 H1 H2 H3 H4 He Hne)).
    done.
  - intros He He'.
    pose proof (checkInputFiles_pass s1 s2 c1 c2 (initial fs)
                  S1 S2 C1 C2 H1 H2 H3 H4 He He') as Hp.
    split; [done|]. rewrite main_unfold, (bind_Ok _ _ _ _ _ Hp).
    by destruct props.
Qed.

(** ** Exit status *)

(** C8 (amended). A validation failure (mismatched mate line counts) and a
    sizing failure (contaminant file too small) both end the process by
    [sys.exit()] without argument, after the message is printed: the exit
    status is 0, not a failure status, and no later proportion is
    processed. *)
Theorem failures_exit_with_status_zero
    s1 s2 c1 c2 props sd fs S1 S2 C1 C2 p rest w Ls Lc sl cl :
  fs !! s1 = Some S1 → fs !! s2 = Some S2 →
  fs !! c1 = Some C1 → fs !! c2 = Some C2 →
  files w !! s1 = Some Ls → files w !! c1 = Some Lc →
  numOfSampleLines (Z.of_nat (length Ls)) p = inr sl →
  numOfContaminantLines (Z.of_nat (length Ls)) p = inr cl →
  let a := Arguments (Some (s1, s2)) (Some (c1, c2)) props sd in
  (length S1 ≠ length S2 ∨ length C1 ≠ length C2 →
     (run shell a fs).1 = SysExit None ∧ exit_status (run shell a fs).1 = 0)
  ∧ (Z.of_nat (length Lc) < cl →
     (for_each_proportion shell s1 s2 c1 c2 sd (p :: rest) w).1 = SysExit None
     ∧ exit_status (for_each_proportion shell s1 s2 c1 c2 sd (p :: rest) w).1
       = 0).
Proof.
  intros H1 H2 H3 H4 Hs Hc Hsl Hcl a. subst a. split.
  - intros Hbad.
    destruct (checkInputFiles_validates s1 s2 c1 c2 props sd fs S1 S2 C1 C2
                H1 H2 H3 H4) as (Ha & Hb & _).
    destruct (decide (length S1 = length S2)) as [He|Hne].
    + destruct Hbad as [?|Hne]; [done|].
      destruct (Hb He Hne) as (w' & -> & _). done.
    + destruct (Ha Hne) as (w' & -> & _). done.
  - intros Hlt.
    pose proof (sizing_failure s1 c1 p w Ls Lc sl cl Hs Hc Hsl Hcl Hlt) as Hx.
    rewrite (for_each_proportion_exit shell _ _ _ _ _ _ _ _ _ _
               (process_proportion_exit shell _ s2 _ c2 sd _ _ _ _ Hx)).
    done.
Qed.

(** ** Names *)

(** C6 (amended). The two output files of a proportion [p] are the targets
    of the combining command, [conPercent<k>_<sample mate 1>] and
    [conPercent<k>_<sample mate 2>], where [k = int(p * 100)] is the
    product truncated toward zero (not rounded to the nearest integer). *)
Theorem output_names_encode_truncated_percentage
    s1 s2 c1 c2 p ns nc sd k w :
  percent p = inr k →
  PyFloat.truncate (PyFloat.mul p (PyFloat.of_int 100)) = Some k
  ∧ last (issued (simulateContamination shell s1 s2 c1 c2 p ns nc (Some sd) w).2)
    = Some ("cat " +:+ temp_sample k +:+ ".1.fastq "
            +:+ temp_contaminant k +:+ ".1.fastq > "
            +:+ output_name k s1 +:+ " &&"
            +:+ " cat " +:+ temp_sample k +:+ ".2.fastq "
            +:+ temp_contaminant k +:+ ".2.fastq > "
            +:+ output_name k s2 +:+ " &&"
            +:+ " rm " +:+ temp_sample k +:+ ".1.fastq "
            +:+ temp_contaminant k +:+ ".1.fastq "
            +:+ temp_sample k +:+ ".2.fastq "
            +:+ temp_contaminant k +:+ ".2.fastq")
  ∧ output_name k s1 = "conPercent" +:+ dec k +:+ "_" +:+ s1
  ∧ output_name k s2 = "conPercent" +:+ dec k +:+ "_" +:+ s2.
Proof.
  intros Hk. split; [|split; [|done]].
  - pose proof (to_int_truncate (PyFloat.mul p (PyFloat.of_int 100))) as Ht.
    unfold percent in Hk. by rewrite Hk in Ht.
  - destruct (simulateContamination_after shell s1 s2 c1 c2 p ns nc sd k w Hk)
      as [rc ->].
    cbn [snd]. rewrite after_simulation_issued.
    rewrite last_app. done.
Qed.

(** C7 (amended). Two proportions whose integer percentages [int(p * 100)]
    differ get different output names and different temporary prefixes,
    whatever the sample file names; two different proportions with the
    same integer percentage get the same names. *)
Theorem distinct_percentages_distinct_names p1 p2 k1 k2 f f' :
  percent p1 = inr k1 → percent p2 = inr k2 → k1 ≠ k2 →
  output_name k1 f ≠ output_name k2 f'
  ∧ temp_sample k1 ≠ temp_sample k2
  ∧ temp_contaminant k1 ≠ temp_contaminant k2.
Proof.
  intros _ _ Hne. repeat split; intros E; apply Hne.
  - by apply output_name_inj in E.
  - by apply temp_sample_inj.
  - by apply temp_contaminant_inj.
Qed.

(** ** No range check *)

(** C10. Nothing in the run looks at the range of a proportion: for any
    double [p] on which the three [int()] conversions succeed, as soon as
    the contaminant file has at least [numOfContaminantLines] lines,
    [calculateLinesRequired] returns and the three commands of
    [simulateContamination] are issued; nothing is printed. *)
Theorem no_range_check s1 s2 c1 c2 sd p w Ls Lc sl cl k :
  files w !! s1 = Some Ls → files w !! c1 = Some Lc →
  numOfSampleLines (Z.of_nat (length Ls)) p = inr sl →
  numOfContaminantLines (Z.of_nat (length Ls)) p = inr cl →
  percent p = inr k →
  cl ≤ Z.of_nat (length Lc) →
  calculateLinesRequired s1 c1 p w =
    (Ok (Z.of_nat (length Ls), sl / 4, cl / 4), w)
  ∧ ∃ w', process_proportion shell s1 s2 c1 c2 (Some sd) p w = (Ok tt, w')
    ∧ stdout w' = stdout w
    ∧ issued w' = issued w ++
        [sample_command (sl / 4) (temp_sample k) sd s1 s2;
         sample_command (cl / 4) (temp_contaminant k) sd c1 c2;
         combine_command (temp_sample k) (temp_contaminant k) k s1 k s2].
Proof.
  intros H1 H2 Hs Hc Hk Hle. split.
  - rewrite (calculateLinesRequired_computed s1 c1 p w Ls Lc sl cl H1 H2 Hs Hc).
    by destruct (Z.ltb_spec (Z.of_nat (length Lc)) cl); [lia|].
  - eexists. split; [by eapply process_proportion_done|].
    split; [done|apply after_simulation_issued].
Qed.

(** ** Sizing *)

(** C2 (amended). For a proportion [p] for which the line counts are
    computed, if the contaminant mate-1 file has fewer lines than
    [numOfContaminantLines], the run prints the message carrying that line
    count and the proportion and stops there: no command is issued for the
    proportion, no file is touched, and the remaining proportions are not
    processed.  In particular, for [p = 0.5] and fewer than [2^53] sample
    lines, this happens whenever the contaminant file has fewer than
    [floor(totalLines * 0.5)] lines. *)
Theorem contaminant_too_small_stops s1 s2 c1 c2 sd p rest w Ls Lc :
  files w !! s1 = Some Ls → files w !! c1 = Some Lc →
  let n := Z.of_nat (length Ls) in
  let available := Z.of_nat (length Lc) in
  (∀ sl cl,
     numOfSampleLines n p = inr sl → numOfContaminantLines n p = inr cl →
     available < cl →
     ∃ w', for_each_proportion shell s1 s2 c1 c2 sd (p :: rest) w
             = (SysExit None, w')
           ∧ stdout w' = stdout w ++
               [Printed "Contamination file too small to provide the %d lines required for %f contamination."
                        [VInt cl; VFloat p]]
           ∧ issued w' = issued w ∧ files w' = files w)
  ∧ (n < 2 ^ 53 → available < n / 2 →
     ∃ w', for_each_proportion shell s1 s2 c1 c2 sd (Examples.p_0_5 :: rest) w
             = (SysExit None, w')
           ∧ issued w' = issued w ∧ files w' = files w).
Proof.
  intros H1 H2 n available.
  assert (∀ q sl cl,
     numOfSampleLines n q = inr sl → numOfContaminantLines n q = inr cl →
     available < cl →
     for_each_proportion shell s1 s2 c1 c2 sd (q :: rest) w
       = (SysExit None, say w (too_small cl q))) as Hstop.
  { intros q sl cl Hs Hc Hlt.
    apply for_each_proportion_exit, process_proportion_exit.
    by eapply sizing_failure. }
  split.
  - intros sl cl Hs Hc Hlt. eexists. split; [by eapply Hstop|done].
  - intros Hn Hlt.
    destruct (half_lines n ltac:(unfold n; lia)) as [Hs Hc].
    eexists. split; [by eapply Hstop|done].
Qed.

(** ** The line counts *)

(** C1 (amended). For a sample mate-1 file of fewer than 2^63 lines and a
    proportion [p] that is a double in [[0, 1]], both conversions succeed
    and the counts are the floors of the double-precision products:
    [numOfSampleLines = floor(n * (1 - p))],
    [numOfContaminantLines = floor(n * p)], and the read counts returned
    are the floors of a quarter of them.  (Outside [[0, 1]] a product can
    be negative, and [int()] truncates toward zero.) *)
Theorem calculateLinesRequired_floors s1 c1 p w Ls Lc :
  files w !! s1 = Some Ls → files w !! c1 = Some Lc →
  Z.of_nat (length Ls) < 2 ^ 63 →
  PyFloat.valid p = true →
  PyFloat.leb (PyFloat.of_int 0) p = true →
  PyFloat.leb p (PyFloat.of_int 1) = true →
  let n := Z.of_nat (length Ls) in
  ∃ sl cl,
    PyFloat.floor
      (PyFloat.mul (PyFloat.of_int n) (PyFloat.sub (PyFloat.of_int 1) p))
      = Some sl
    ∧ PyFloat.floor (PyFloat.mul (PyFloat.of_int n) p) = Some cl
    ∧ numOfSampleLines n p = inr sl
    ∧ numOfContaminantLines n p = inr cl
    ∧ calculateLinesRequired s1 c1 p w =
        if Z.of_nat (length Lc) <? cl
        then (SysExit None, say w (too_small cl p))
        else (Ok (n, sl / 4, cl / 4), w).
Proof.
  intros H1 H2 Hn Hv H0 H1' n.
  assert (0 ≤ n < 2 ^ 63) as Hrange by (unfold n; lia).
  pose proof (of_int_bound n Hrange) as Bn.
  pose proof (sub_one_bound p Hv H0 H1') as Bq.
  pose proof (unit_interval_below p Hv H0 H1') as Bp.
  destruct (to_int_floor _ _ (mul_bound 64 2 _ _ Bn Bq ltac:(lia)))
    as (sl & Hsl & Fsl & _).
  destruct (to_int_floor _ _ (mul_bound 64 1 _ _ Bn Bp ltac:(lia)))
    as (cl & Hcl & Fcl & _).
  assert (numOfSampleLines n p = inr sl) as Hsl'
    by (by rewrite (numOfSampleLines_finite _ _ _ _ Bn)).
  assert (numOfContaminantLines n p = inr cl) as Hcl'
    by (by rewrite (numOfContaminantLines_finite _ _ _ _ Bn)).
  exists sl, cl. repeat split; try done.
  by apply calculateLinesRequired_computed.
Qed.

End Claims.

Lemma checkInputFiles_validates_witness :
  (∃ w, run Examples.quiet (Examples.command_line [Examples.p_0_2] 5)
            (Examples.four_files 400 404 100 100) = (SysExit None, w) ∧
        stdout w = [sample_mismatch] ∧ issued w = [] ∧
        files w = Examples.four_files 400 404 100 100).
Proof.
  refine (proj1 (checkInputFiles_validates Examples.quiet
    "s_R1.fastq" "s_R2.fastq" "c_R1.fastq" "c_R2.fastq"
    (Some [Examples.p_0_2]) (Some 5) (Examples.four_files 400 404 100 100)
    (Examples.lines_of 400 "s1") (Examples.lines_of 404 "s2")
    (Examples.lines_of 100 "c1") (Examples.lines_of 100 "c2")
    _ _ _ _) _); try (vm_compute; reflexivity).
  vm_compute. discriminate.
Defined.

(** ** Concrete runs *)

(** C1, counterexample: with 8 sample lines and [p = 1.3] the product
    [8 * (1 - 1.3)] is about -2.4; the code computes -2, the floor is -3. *)
Lemma int_truncates_where_floor_differs :
  numOfSampleLines 8 Examples.p_1_3 = inr (-2)
  ∧ PyFloat.floor
      (PyFloat.mul (PyFloat.of_int 8)
         (PyFloat.sub (PyFloat.of_int 1) Examples.p_1_3)) = Some (-3)
  ∧ calculateLinesRequired "s_R1.fastq" "c_R1.fastq" Examples.p_1_3
      (initial (Examples.four_files 8 8 12 12))
    = (Ok (8, -1, 2), initial (Examples.four_files 8 8 12 12)).
Proof. repeat split; vm_compute; reflexivity. Qed.

Lemma calculateLinesRequired_floors_witness :
  ∃ sl cl,
    PyFloat.floor
      (PyFloat.mul (PyFloat.of_int 8)
         (PyFloat.sub (PyFloat.of_int 1) Examples.p_0_25)) = Some sl
    ∧ PyFloat.floor (PyFloat.mul (PyFloat.of_int 8) Examples.p_0_25) = Some cl
    ∧ numOfSampleLines 8 Examples.p_0_25 = inr sl
    ∧ numOfContaminantLines 8 Examples.p_0_25 = inr cl
    ∧ calculateLinesRequired "s_R1.fastq" "c_R1.fastq" Examples.p_0_25
        (initial (Examples.four_files 8 8 4 4)) =
        if 4 <? cl
        then (SysExit None,
              say (initial (Examples.four_files 8 8 4 4))
                  (too_small cl Examples.p_0_25))
        else (Ok (8, sl / 4, cl / 4), initial (Examples.four_files 8 8 4 4)).
Proof.
  apply (calculateLinesRequired_floors "s_R1.fastq" "c_R1.fastq"
           Examples.p_0_25 (initial (Examples.four_files 8 8 4 4))
           (Examples.lines_of 8 "s1") (Examples.lines_of 4 "c1"));
    vm_compute; (reflexivity || discriminate).
Defined.

(** C8, counterexample: sample mates of 400 and 404 lines; the run ends by
    [sys.exit()] and the exit status is 0. *)
Lemma mismatch_exits_with_status_zero :
  (run Examples.quiet (Examples.command_line [Examples.p_0_2] 5)
     (Examples.four_files 400 404 100 100)).1 = SysExit None
  ∧ exit_status
      (run Examples.quiet (Examples.command_line [Examples.p_0_2] 5)
         (Examples.four_files 400 404 100 100)).1 = 0.
Proof. split; vm_compute; reflexivity. Qed.

Lemma failures_exit_with_status_zero_witness :
  (run Examples.quiet (Examples.command_line [Examples.p_0_5] 5)
     (Examples.four_files 400 404 100 100)).1 = SysExit None
  ∧ exit_status
      (for_each_proportion Examples.quiet
         "s_R1.fastq" "s_R2.fastq" "c_R1.fastq" "c_R2.fastq" (Some 5)
         [Examples.p_0_5] (initial (Examples.four_files 8 8 3 3))).1 = 0.
Proof.
  pose proof (failures_exit_with_status_zero Examples.quiet
    "s_R1.fastq" "s_R2.fastq" "c_R1.fastq" "c_R2.fastq"
    (Some [Examples.p_0_5]) (Some 5) (Examples.four_files 400 404 100 100)
    (Examples.lines_of 400 "s1") (Examples.lines_of 404 "s2")
    (Examples.lines_of 100 "c1") (Examples.lines_of 100 "c2")
    Examples.p_0_5 [] (initial (Examples.four_files 8 8 3 3))
    (Examples.lines_of 8 "s1") (Examples.lines_of 3 "c1") 4 4
    eq_refl eq_refl eq_refl eq_refl eq_refl eq_refl eq_refl eq_refl)
    as [Hv Hs].
  split.
  - apply Hv. left. vm_compute. discriminate.
  - apply Hs. vm_compute. reflexivity.
Defined.

(** C6, counterexample: [p = 0.4375] gives [p * 100 = 43.75]; the nearest
    integer is 44, the names carry 43. *)
Lemma percentage_is_truncated_not_rounded :
  PyFloat.nearest (PyFloat.mul Examples.p_0_4375 (PyFloat.of_int 100)) 44
  ∧ ¬ PyFloat.nearest (PyFloat.mul Examples.p_0_4375 (PyFloat.of_int 100)) 43
  ∧ percent Examples.p_0_4375 = inr 43
  ∧ last (issued
      (run Examples.quiet (Examples.command_line [Examples.p_0_4375] 5)
         (Examples.four_files 8 8 4 4)).2)
    = Some (combine_command "temp_sample43" "temp_contaminant43"
              43 "s_R1.fastq" 43 "s_R2.fastq")
  ∧ output_name 43 "s_R1.fastq" = "conPercent43_s_R1.fastq"
  ∧ output_name 43 "s_R1.fastq" ≠ output_name 44 "s_R1.fastq".
Proof.
  split; [|split; [|split; [|split; [|split]]]].
  - vm_compute. discriminate.
  - intros H. vm_compute in H. apply H. reflexivity.
  - vm_compute. reflexivity.
  - vm_compute. reflexivity.
  - vm_compute. reflexivity.
  - vm_compute. discriminate.
Qed.

Lemma output_names_encode_truncated_percentage_witness :
  PyFloat.truncate (PyFloat.mul Examples.p_0_4375 (PyFloat.of_int 100))
    = Some 43
  ∧ output_name 43 "s_R1.fastq" = "conPercent" +:+ dec 43 +:+ "_" +:+ "s_R1.fastq".
Proof.
  pose proof (output_names_encode_truncated_percentage Examples.quiet
    "s_R1.fastq" "s_R2.fastq" "c_R1.fastq" "c_R2.fastq"
    Examples.p_0_4375 1 0 5 43 (initial (Examples.four_files 8 8 4 4))
    eq_refl) as (Ht & _ & Hn & _).
  split; [exact Ht|exact Hn].
Defined.

(** C7, counterexample: [0.25] and [0.255] are different proportions with
    the same integer percentage 25; in one run the combining command of the
    second is the very command of the first, so its outputs replace those
    of the first. *)
Lemma different_proportions_same_names :
  Examples.p_0_25 ≠ Examples.p_0_255
  ∧ percent Examples.p_0_25 = inr 25
  ∧ percent Examples.p_0_255 = inr 25
  ∧ (issued
       (run Examples.quiet
          (Examples.command_line [Examples.p_0_25; Examples.p_0_255] 5)
          (Examples.four_files 8 8 4 4)).2) !! 2%nat
    = Some (combine_command "temp_sample25" "temp_contaminant25"
              25 "s_R1.fastq" 25 "s_R2.fastq")
  ∧ (issued
       (run Examples.quiet
          (Examples.command_line [Examples.p_0_25; Examples.p_0_255] 5)
          (Examples.four_files 8 8 4 4)).2) !! 5%nat
    = Some (combine_command "temp_sample25" "temp_contaminant25"
              25 "s_R1.fastq" 25 "s_R2.fastq").
Proof.
  split; [|repeat split; vm_compute; reflexivity].
  vm_compute. discriminate.
Qed.

Lemma distinct_percentages_distinct_names_witness :
  output_name 20 "s_R1.fastq" ≠ output_name 25 "s_R2.fastq"
  ∧ temp_sample 20 ≠ temp_sample 25
  ∧ temp_contaminant 20 ≠ temp_contaminant 25.
Proof.
  apply (distinct_percentages_distinct_names Examples.p_0_2 Examples.p_0_25).
  - vm_compute. reflexivity.
  - vm_compute. reflexivity.
  - discriminate.
Defined.

(** C10, witness: [p = 1.3], outside the documented range, is processed. *)
Lemma no_range_check_witness :
  calculateLinesRequired "s_R1.fastq" "c_R1.fastq" Examples.p_1_3
    (initial (Examples.four_files 8 8 12 12))
    = (Ok (8, -2 / 4, 10 / 4), initial (Examples.four_files 8 8 12 12))
  ∧ ∃ w', process_proportion Examples.quiet
            "s_R1.fastq" "s_R2.fastq" "c_R1.fastq" "c_R2.fastq" (Some 5)
            Examples.p_1_3 (initial (Examples.four_files 8 8 12 12))
          = (Ok tt, w')
    ∧ stdout w' = []
    ∧ issued w' = [] ++
        [sample_command (-2 / 4) (temp_sample 130) 5 "s_R1.fastq" "s_R2.fastq";
         sample_command (10 / 4) (temp_contaminant 130) 5 "c_R1.fastq" "c_R2.fastq";
         combine_command (temp_sample 130) (temp_contaminant 130)
           130 "s_R1.fastq" 130 "s_R2.fastq"].
Proof.
  apply (no_range_check Examples.quiet
           "s_R1.fastq" "s_R2.fastq" "c_R1.fastq" "c_R2.fastq" 5
           Examples.p_1_3 (initial (Examples.four_files 8 8 12 12))
           (Examples.lines_of 8 "s1") (Examples.lines_of 12 "c1") (-2) 10 130);
    vm_compute; (reflexivity || discriminate).
Defined.

(** C2, counterexample: 5 sample lines, [p = 0.5], a contaminant file of 2
    lines, which is fewer than [5 * 0.5]; the check compares with
    [int(2.5) = 2], passes, and the three commands are issued. *)
Lemma two_lines_pass_for_half_of_five :
  (inject_Z 2 < inject_Z 5 * (1 # 2))%Q
  ∧ numOfContaminantLines 5 Examples.p_0_5 = inr 2
  ∧ ∃ w', run Examples.quiet (Examples.command_line [Examples.p_0_5] 5)
            (Examples.four_files 5 5 2 2) = (Ok tt, w')
    ∧ stdout w' = []
    ∧ issued w' =
        [sample_command 0 "temp_sample50" 5 "s_R1.fastq" "s_R2.fastq";
         sample_command 0 "temp_contaminant50" 5 "c_R1.fastq" "c_R2.fastq";
         combine_command "temp_sample50" "temp_contaminant50"
           50 "s_R1.fastq" 50 "s_R2.fastq"].
Proof.
  split; [by vm_compute|]. split; [by vm_compute|].
  eexists. split; [vm_compute; reflexivity|]. split; vm_compute; reflexivity.
Qed.

Lemma contaminant_too_small_stops_witness :
  ∃ w', for_each_proportion Examples.quiet
          "s_R1.fastq" "s_R2.fastq" "c_R1.fastq" "c_R2.fastq" (Some 5)
          [Examples.p_0_5; Examples.p_0_2]
          (initial (Examples.four_files 4000 4000 1000 1000))
        = (SysExit None, w')
    ∧ issued w' = [] ∧ files w' = Examples.four_files 4000 4000 1000 1000.
Proof.
  refine (proj2 (contaminant_too_small_stops Examples.quiet
    "s_R1.fastq" "s_R2.fastq" "c_R1.fastq" "c_R2.fastq" (Some 5)
    Examples.p_0_5 [Examples.p_0_2]
    (initial (Examples.four_files 4000 4000 1000 1000))
    (Examples.lines_of 4000 "s1") (Examples.lines_of 1000 "c1")
    eq_refl eq_refl) _ _); vm_compute; reflexivity.
Defined.

(** ** The environment model *)

Section ShellFacts.

#[local] Arguments String.append : simpl nomatch.

Lemma string_app_assoc (a b c : string) : (a +:+ b) +:+ c = a +:+ (b +:+ c).
Proof. induction a as [|x a IH]; simpl; [done|by rewrite IH]. Qed.

Lemma string_app_nil_r (a : string) : a +:+ "" = a.
Proof. induction a as [|x a IH]; simpl; [done|by rewrite IH]. Qed.

(** *** Splitting a command line into words *)

Lemma scan_blank_free w s :
  Shell.blank_free w = true →
  Shell.scan (w +:+ s) = ((w +:+ (Shell.scan s).1), (Shell.scan s).2).
Proof.
  induction w as [|a w IH]; simpl.
  - by destruct (Shell.scan s).
  - intros [Ha Hw]%andb_prop. rewrite (IH Hw).
    by destruct (Shell.is_blank a).
Qed.

Lemma scan_unwords w ws :
  Forall (λ x, Shell.is_word x = true) (w :: ws) →
  Shell.scan (Shell.unwords (w :: ws)) = (w, ws).
Proof.
  revert w. induction ws as [|w2 ws IH]; intros w Hall.
  - apply Forall_cons in Hall as [Hw _].
    assert (Shell.blank_free w = true) as Hb by (by destruct w).
    cbn [Shell.unwords]. rewrite <- (string_app_nil_r w) at 1.
    rewrite (scan_blank_free w "" Hb). simpl. by rewrite string_app_nil_r.
  - apply Forall_cons in Hall as [Hw Hrest].
    assert (Shell.blank_free w = true) as Hb by (by destruct w).
    change (Shell.unwords (w :: w2 :: ws))
      with (w +:+ String " " (Shell.unwords (w2 :: ws))).
    rewrite (scan_blank_free w _ Hb).
    cbn [Shell.scan]. rewrite (IH w2 Hrest).
    change (Shell.is_blank " ") with true. cbn [fst snd].
    rewrite string_app_nil_r. f_equal.
    apply Forall_cons in Hrest as [Hw2 _]. by destruct w2.
Qed.

Lemma words_unwords ws :
  Forall (λ x, Shell.is_word x = true) ws →
  Shell.words (Shell.unwords ws) = ws.
Proof.
  destruct ws as [|w ws]; [done|]. intros Hall. unfold Shell.words.
  rewrite (scan_unwords w ws Hall).
  apply Forall_cons in Hall as [Hw _]. by destruct w.
Qed.

(** *** Splitting a word list at a separator *)

Lemma split_on_cons_ne sep w ws :
  w ≠ sep →
  Shell.split_on sep (w :: ws) =
    match Shell.split_on sep ws with
    | c :: cs => (w :: c) :: cs
    | [] => [[w]]
    end.
Proof. intros Hne. simpl. by apply String.eqb_neq in Hne as ->. Qed.

Lemma split_on_cons_eq sep ws :
  Shell.split_on sep (sep :: ws) = [] :: Shell.split_on sep ws.
Proof. simpl. by rewrite String.eqb_refl. Qed.

Lemma split_on_app sep ws rest :
  Forall (λ w, w ≠ sep) ws →
  Shell.split_on sep (ws ++ sep :: rest) = ws :: Shell.split_on sep rest.
Proof.
  induction ws as [|w ws IH]; intros Hall.
  - apply split_on_cons_eq.
  - apply Forall_cons in Hall as [Hw Hws].
    rewrite <- app_comm_cons, (split_on_cons_ne _ _ _ Hw), (IH Hws). done.
Qed.

Lemma split_on_none sep ws :
  Forall (λ w, w ≠ sep) ws → Shell.split_on sep ws = [ws].
Proof.
  induction ws as [|w ws IH]; intros Hall; [done|].
  apply Forall_cons in Hall as [Hw Hws].
  by rewrite (split_on_cons_ne _ _ _ Hw), (IH Hws).
Qed.

(** *** Plain names *)

Lemma plain_chars_app a b :
  Shell.plain_chars (a +:+ b) = Shell.plain_chars a && Shell.plain_chars b.
Proof. induction a as [|x a IH]; simpl; [done|]. by rewrite IH, andb_assoc. Qed.

Lemma plain_char_not_blank a :
  Shell.plain_char a = true → Shell.is_blank a = false.
Proof.
  intros H. unfold Shell.is_blank. apply Ascii.eqb_neq. by intros ->.
Qed.

Lemma plain_chars_blank_free w :
  Shell.plain_chars w = true → Shell.blank_free w = true.
Proof.
  induction w as [|a w IH]; simpl; [done|]. intros [Ha Hw]%andb_prop.
  by rewrite (plain_char_not_blank a Ha), IH.
Qed.

Lemma plain_chars_word w :
  w ≠ "" → Shell.plain_chars w = true → Shell.is_word w = true.
Proof.
  intros Hne Hp. destruct w; [done|]. by apply plain_chars_blank_free.
Qed.

Lemma numeric_plain_chars w : numeric w = true → Shell.plain_chars w = true.
Proof.
  induction w as [|a w IH]; simpl; [done|]. intros [Ha Hw]%andb_prop.
  rewrite (IH Hw), andb_true_r. unfold numeric_char in Ha.
  unfold Shell.plain_char. apply orb_prop in Ha as [->| ->]; [done|].
  by rewrite !orb_true_r.
Qed.

Lemma plain_chars_dec n : Shell.plain_chars (dec n) = true.
Proof. apply numeric_plain_chars, numeric_dec. Qed.

Lemma plain_inv w :
  Shell.plain w = true → w ≠ "" ∧ Shell.plain_chars w = true.
Proof.
  destruct w as [|a w]; [done|]. unfold Shell.plain.
  intros [_ H]%andb_prop. done.
Qed.

Lemma plain_chars_ne w sep :
  Shell.plain_chars sep = false → Shell.plain_chars w = true → w ≠ sep.
Proof. by intros Hs Hw ->; congruence. Qed.

(** *** The command lines as word lists *)

Lemma sample_command_unwords n pre sd f1 f2 :
  sample_command n pre sd f1 f2 =
  Shell.unwords ["fastq-sample"; "-n"; dec n; "-o"; pre; "-s"; dec sd; f1; f2].
Proof. reflexivity. Qed.

Lemma combine_command_unwords ts tc k1 f1 k2 f2 :
  combine_command ts tc k1 f1 k2 f2 =
  Shell.unwords
    (["cat"; ts +:+ ".1.fastq"; tc +:+ ".1.fastq"; ">"; output_name k1 f1]
     ++ "&&" ::
     ["cat"; ts +:+ ".2.fastq"; tc +:+ ".2.fastq"; ">"; output_name k2 f2]
     ++ "&&" ::
     ["rm"; ts +:+ ".1.fastq"; tc +:+ ".1.fastq";
      ts +:+ ".2.fastq"; tc +:+ ".2.fastq"]).
Proof.
  unfold combine_command. cbn [app Shell.unwords].
  rewrite !string_app_assoc. reflexivity.
Qed.

Lemma is_word_dec n : Shell.is_word (dec n) = true.
Proof. apply plain_chars_word; [apply dec_nonempty|apply plain_chars_dec]. Qed.

Lemma is_word_plain f : Shell.plain f = true → Shell.is_word f = true.
Proof. intros [? ?]%plain_inv. by apply plain_chars_word. Qed.

Lemma suffix_nonempty (pre suffix : string) : suffix ≠ "" → pre +:+ suffix ≠ "".
Proof. by destruct pre. Qed.

Lemma is_word_suffixed pre suffix :
  Shell.plain_chars pre = true → Shell.plain_chars suffix = true →
  suffix ≠ "" → Shell.is_word (pre +:+ suffix) = true.
Proof.
  intros Hp Hs Hne. apply plain_chars_word; [by apply suffix_nonempty|].
  by rewrite plain_chars_app, Hp, Hs.
Qed.

Lemma plain_chars_temp_sample k : Shell.plain_chars (temp_sample k) = true.
Proof. unfold temp_sample. by rewrite plain_chars_app, plain_chars_dec. Qed.

Lemma plain_chars_temp_contaminant k :
  Shell.plain_chars (temp_contaminant k) = true.
Proof. unfold temp_contaminant. by rewrite plain_chars_app, plain_chars_dec. Qed.

Lemma plain_chars_output_name k f :
  Shell.plain_chars f = true → Shell.plain_chars (output_name k f) = true.
Proof.
  intros Hf. unfold output_name.
  by rewrite !plain_chars_app, plain_chars_dec, Hf.
Qed.

Lemma is_word_output_name k f :
  Shell.plain_chars f = true → Shell.is_word (output_name k f) = true.
Proof.
  intros Hf. apply plain_chars_word; [done|by apply plain_chars_output_name].
Qed.

(** A word of the issued command lines is never the operator [&&], nor the
    redirection [>]. *)
Lemma is_word_plain_chars_ne w sep :
  Shell.plain_chars sep = false → Shell.plain_chars w = true → w ≠ sep.
Proof. intros Hs Hw ->. congruence. Qed.

(** *** What the commands do *)

Section Commands.

Variable pick : Z → Z → list string → list string → list string * list string.

Lemma sh_sample n pre sd f1 f2 fs mate1 mate2 :
  pre ≠ "" → Shell.plain_chars pre = true →
  Shell.plain f1 = true → Shell.plain f2 = true →
  fs !! f1 = Some mate1 → fs !! f2 = Some mate2 →
  Shell.sh pick (sample_command n pre sd f1 f2) fs =
    (<[pre +:+ ".2.fastq" := (pick sd n mate1 mate2).2]>
       (<[pre +:+ ".1.fastq" := (pick sd n mate1 mate2).1]> fs), 0).
Proof.
  intros Hpre Hprep Hf1 Hf2 H1 H2.
  destruct (plain_inv _ Hf1) as [Hn1 Hp1], (plain_inv _ Hf2) as [Hn2 Hp2].
  unfold Shell.sh. rewrite sample_command_unwords, words_unwords.
  2:{ repeat constructor; try done; auto using is_word_dec, is_word_plain,
        plain_chars_word. }
  rewrite split_on_none.
  2:{ repeat constructor; try done;
        apply is_word_plain_chars_ne; auto using plain_chars_dec. }
  cbn [Shell.and_list Shell.simple Shell.fastq_sample].
  change (String.eqb "fastq-sample" "fastq-sample") with true. cbv iota.
  change (String.eqb "-n" "-n") with true.
  change (String.eqb "-o" "-o") with true.
  change (String.eqb "-s" "-s") with true. cbn [andb].
  rewrite !undec_dec, H1, H2. by destruct (pick sd n mate1 mate2).
Qed.

Lemma cat_into_two a b out fs A B :
  a ≠ out → b ≠ out → fs !! a = Some A → fs !! b = Some B →
  Shell.cat_into [a; b] out fs = (<[out := A ++ B]> fs, 0).
Proof.
  intros Ha Hb HA HB. unfold Shell.cat_into.
  rewrite (filter_cons_True _ a) by done.
  rewrite (filter_cons_True _ b) by done.
  rewrite filter_nil. cbn [omap list_omap]. rewrite HA, HB.
  cbn [concat forallb]. rewrite app_nil_r.
  rewrite !bool_decide_eq_true_2; [done|by rewrite HB|by rewrite HA].
Qed.

Lemma rm_files names fs :
  (Shell.rm names fs).1 = foldl (λ m f, delete f m) fs names.
Proof.
  revert fs. induction names as [|f names IH]; intros fs; [done|].
  cbn [Shell.rm foldl]. rewrite <- IH. by destruct (Shell.rm names (delete f fs)).
Qed.

(** The combining command: the two concatenations, then the removal. *)
Lemma sh_combine ts tc k1 f1 k2 f2 fs A1 B1 A2 B2 :
  Shell.plain_chars ts = true → Shell.plain_chars tc = true →
  Shell.plain_chars f1 = true → Shell.plain_chars f2 = true →
  Forall (λ t, t ≠ output_name k1 f1 ∧ t ≠ output_name k2 f2)
    [ts +:+ ".1.fastq"; tc +:+ ".1.fastq"; ts +:+ ".2.fastq"; tc +:+ ".2.fastq"] →
  fs !! (ts +:+ ".1.fastq") = Some A1 → fs !! (tc +:+ ".1.fastq") = Some B1 →
  fs !! (ts +:+ ".2.fastq") = Some A2 → fs !! (tc +:+ ".2.fastq") = Some B2 →
  (Shell.sh pick (combine_command ts tc k1 f1 k2 f2) fs).1 =
    delete (tc +:+ ".2.fastq")
      (delete (ts +:+ ".2.fastq")
        (delete (tc +:+ ".1.fastq")
          (delete (ts +:+ ".1.fastq")
            (<[output_name k2 f2 := A2 ++ B2]>
              (<[output_name k1 f1 := A1 ++ B1]> fs))))).
Proof.
  intros Hts Htc Hf1 Hf2 Hfresh HA1 HB1 HA2 HB2.
  apply Forall_cons in Hfresh as [[Ha1 Ha1'] Hfresh].
  apply Forall_cons in Hfresh as [[Hb1 Hb1'] Hfresh].
  apply Forall_cons in Hfresh as [[Ha2 Ha2'] Hfresh].
  apply Forall_cons in Hfresh as [[Hb2 Hb2'] _].
  assert (∀ pre suffix, Shell.plain_chars pre = true →
            Shell.plain_chars suffix = true → suffix ≠ "" →
            ∀ sep, Shell.plain_chars sep = false → pre +:+ suffix ≠ sep)
    as Hne.
  { intros pre suffix Hp Hs _ sep Hsep. apply is_word_plain_chars_ne; [done|].
    by rewrite plain_chars_app, Hp, Hs. }
  assert (∀ k f sep, Shell.plain_chars f = true →
            Shell.plain_chars sep = false → output_name k f ≠ sep) as Hne'.
  { intros k f sep Hf Hsep. apply is_word_plain_chars_ne; [done|].
    by apply plain_chars_output_name. }
  unfold Shell.sh. rewrite combine_command_unwords, words_unwords.
  2:{ cbn [app]. repeat constructor;
        first [ done
              | by apply is_word_suffixed
              | by apply is_word_output_name ]. }
  rewrite split_on_app
    by (repeat constructor; first [done | by apply Hne | by apply Hne']).
  rewrite split_on_app
    by (repeat constructor; first [done | by apply Hne | by apply Hne']).
  rewrite split_on_none
    by (repeat constructor; first [done | by apply Hne | by apply Hne']).
  cbn [Shell.and_list].
  (* first concatenation *)
  assert (∀ a b out m A B,
    Shell.plain_chars a = true → Shell.plain_chars b = true →
    Shell.plain_chars out = true →
    a ≠ out → b ≠ out → m !! a = Some A → m !! b = Some B →
    Shell.simple pick ["cat"; a; b; ">"; out] m = (<[out := A ++ B]> m, 0))
    as Hcat.
  { intros a b out m A B Hpa Hpb Hpo Hao Hbo HA HB. unfold Shell.simple.
    change (String.eqb "cat" "fastq-sample") with false.
    change (String.eqb "cat" "rm") with false.
    change (String.eqb "cat" "cat") with true. cbv iota.
    change [a; b; ">"; out] with ([a; b] ++ ">" :: [out]).
    rewrite split_on_app
      by (repeat constructor; by apply is_word_plain_chars_ne).
    rewrite split_on_none
      by (repeat constructor; by apply is_word_plain_chars_ne).
    by apply cat_into_two. }
  assert (Shell.plain_chars (ts +:+ ".1.fastq") = true) as P1
    by (by rewrite plain_chars_app, Hts).
  assert (Shell.plain_chars (tc +:+ ".1.fastq") = true) as P2
    by (by rewrite plain_chars_app, Htc).
  assert (Shell.plain_chars (ts +:+ ".2.fastq") = true) as P3
    by (by rewrite plain_chars_app, Hts).
  assert (Shell.plain_chars (tc +:+ ".2.fastq") = true) as P4
    by (by rewrite plain_chars_app, Htc).
  pose proof (plain_chars_output_name k1 f1 Hf1) as Po1.
  pose proof (plain_chars_output_name k2 f2 Hf2) as Po2.
  rewrite (Hcat _ _ _ fs A1 B1 P1 P2 Po1 Ha1 Hb1 HA1 HB1).
  change (0 =? 0) with true. cbv iota.
  rewrite (Hcat _ _ _ _ A2 B2 P3 P4 Po2 Ha2' Hb2')
    by (by rewrite lookup_insert_ne).
  change (0 =? 0) with true. cbv iota.
  unfold Shell.simple.
  change (String.eqb "rm" "fastq-sample") with false.
  change (String.eqb "rm" "rm") with true. cbv iota.
  match goal with
  | |- context [Shell.rm ?names ?m] =>
      pose proof (rm_files names m) as Hrm; destruct (Shell.rm names m)
  end.
  cbn [fst] in *. by rewrite Hrm.
Qed.

(** *** Names never clash *)

Lemma temporary_files_distinct k : NoDup (temporary_files k).
Proof.
  unfold temporary_files, temp_sample, temp_contaminant.
  repeat apply NoDup_cons_2; [..|apply NoDup_nil_2];
    rewrite ?not_elem_of_cons; repeat split; try apply not_elem_of_nil;
    intros E; simplify_eq/=;
    match goal with
    | H : _ +:+ _ = _ +:+ _ |- _ => by apply (inj (String.append _)) in H
    end.
Qed.

Lemma output_name_not_temporary k k' f :
  output_name k' f ∉ temporary_files k.
Proof.
  unfold temporary_files, temp_sample, temp_contaminant, output_name.
  rewrite !elem_of_cons, elem_of_nil. intros [E|[E|[E|[E|[]]]]]; simplify_eq/=.
Qed.

(** *** One simulation in the modelled environment *)

Lemma files_after_simulation s1 s2 c1 c2 ns nc sd k w S1 S2 C1 C2 :
  Shell.plain s1 = true → Shell.plain s2 = true →
  Shell.plain c1 = true → Shell.plain c2 = true →
  files w !! s1 = Some S1 → files w !! s2 = Some S2 →
  files w !! c1 = Some C1 → files w !! c2 = Some C2 →
  c1 ∉ temporary_files k → c2 ∉ temporary_files k →
  let sample := pick sd ns S1 S2 in
  let contaminant := pick sd nc C1 C2 in
  files (after_simulation (Shell.sh pick) s1 s2 c1 c2 ns nc sd k w) =
    foldl (λ m f, delete f m)
      (<[output_name k s2 := sample.2 ++ contaminant.2]>
        (<[output_name k s1 := sample.1 ++ contaminant.1]>
          (<[temp_contaminant k +:+ ".2.fastq" := contaminant.2]>
            (<[temp_contaminant k +:+ ".1.fastq" := contaminant.1]>
              (<[temp_sample k +:+ ".2.fastq" := sample.2]>
                (<[temp_sample k +:+ ".1.fastq" := sample.1]> (files w)))))))
      (temporary_files k).
Proof.
  intros Hs1 Hs2 Hc1 Hc2 F1 F2 F3 F4 N1 N2 sample contaminant.
  pose proof (temporary_files_distinct k) as Hnd.
  pose proof (output_name_not_temporary k k s1) as Ho1.
  pose proof (output_name_not_temporary k k s2) as Ho2.
  unfold temporary_files in *.
  rewrite !not_elem_of_cons in N1, N2, Ho1, Ho2.
  destruct N1 as (N1a & N1b & N1c & N1d & _), N2 as (N2a & N2b & N2c & N2d & _).
  destruct Ho1 as (O1a & O1b & O1c & O1d & _), Ho2 as (O2a & O2b & O2c & O2d & _).
  apply NoDup_cons in Hnd as [D1 Hnd]. apply NoDup_cons in Hnd as [D2 Hnd].
  apply NoDup_cons in Hnd as [D3 _].
  rewrite !not_elem_of_cons in D1. rewrite !not_elem_of_cons in D2.
  rewrite !not_elem_of_cons in D3.
  destruct D1 as (D12 & D13 & D14 & _), D2 as (D23 & D24 & _), D3 as (D34 & _).
  unfold after_simulation, after_call. cbn [files].
  rewrite (sh_sample ns (temp_sample k) sd s1 s2 (files w) S1 S2)
    by (done || apply plain_chars_temp_sample).
  cbn [fst].
  rewrite (sh_sample nc (temp_contaminant k) sd c1 c2 _ C1 C2)
    by (done || apply plain_chars_temp_contaminant
        || by rewrite !lookup_insert_ne).
  cbn [fst].
  destruct (plain_inv _ Hs1) as [_ Ps1], (plain_inv _ Hs2) as [_ Ps2].
  rewrite (sh_combine (temp_sample k) (temp_contaminant k) k s1 k s2 _
             sample.1 contaminant.1 sample.2 contaminant.2);
    [ done
    | apply plain_chars_temp_sample | apply plain_chars_temp_contaminant
    | done | done
    | repeat constructor; congruence
    | .. ].
  - by rewrite lookup_insert_ne, lookup_insert_ne, lookup_insert_ne,
      lookup_insert_eq.
  - by rewrite lookup_insert_ne, lookup_insert_eq.
  - by rewrite lookup_insert_ne, lookup_insert_ne, lookup_insert_eq.
  - by rewrite lookup_insert_eq.
Qed.

Lemma lookup_foldl_delete (names : list string) (m : file_system) f :
  foldl (λ m f, delete f m) m names !! f =
    if decide (f ∈ names) then None else m !! f.
Proof.
  revert m. induction names as [|g names IH]; intros m; cbn [foldl].
  - by rewrite decide_False by apply not_elem_of_nil.
  - rewrite IH. destruct (decide (f = g)) as [->|Hne].
    + rewrite (decide_True (P := g ∈ g :: names)) by (apply elem_of_cons; by left).
      case_decide; [done|]. by rewrite lookup_delete_eq.
    + rewrite lookup_delete_ne by done.
      destruct (decide (f ∈ names)) as [Hin|Hnin].
      * rewrite decide_True; [done|]. apply elem_of_cons. by right.
      * rewrite decide_False; [done|]. by rewrite not_elem_of_cons.
Qed.

Lemma output_name_sample_inj k f f' :
  output_name k f = output_name k f' → f = f'.
Proof.
  unfold output_name. intros E. by simplify_eq/=.
Qed.

(** The files once one proportion has been simulated. *)
Lemma after_simulation_files s1 s2 c1 c2 ns nc sd k w S1 S2 C1 C2 :
  Shell.plain s1 = true → Shell.plain s2 = true →
  Shell.plain c1 = true → Shell.plain c2 = true →
  files w !! s1 = Some S1 → files w !! s2 = Some S2 →
  files w !! c1 = Some C1 → files w !! c2 = Some C2 →
  c1 ∉ temporary_files k → c2 ∉ temporary_files k →
  let sample := pick sd ns S1 S2 in
  let contaminant := pick sd nc C1 C2 in
  let w' := after_simulation (Shell.sh pick) s1 s2 c1 c2 ns nc sd k w in
  (s1 ≠ s2 →
     files w' !! output_name k s1 = Some (sample.1 ++ contaminant.1))
  ∧ files w' !! output_name k s2 = Some (sample.2 ++ contaminant.2)
  ∧ (∀ f, f ∈ temporary_files k → files w' !! f = None)
  ∧ (∀ f, f ∉ temporary_files k →
          f ≠ output_name k s1 → f ≠ output_name k s2 →
          files w' !! f = files w !! f).
Proof.
  intros Hs1 Hs2 Hc1 Hc2 F1 F2 F3 F4 N1 N2 sample contaminant w'.
  pose proof (files_after_simulation s1 s2 c1 c2 ns nc sd k w S1 S2 C1 C2
                Hs1 Hs2 Hc1 Hc2 F1 F2 F3 F4 N1 N2) as E.
  cbv zeta in E. subst w'. rewrite E. clear E.
  split_and!.
  - intros Hne. rewrite lookup_foldl_delete.
    rewrite decide_False by apply output_name_not_temporary.
    rewrite lookup_insert_ne; [by rewrite lookup_insert_eq|].
    intros E. apply Hne. symmetry. by apply (output_name_sample_inj k).
  - rewrite lookup_foldl_delete.
    rewrite decide_False by apply output_name_not_temporary.
    by rewrite lookup_insert_eq.
  - intros f Hf. rewrite lookup_foldl_delete. by rewrite decide_True.
  - intros f Hf Ho1 Ho2. rewrite lookup_foldl_delete.
    rewrite decide_False by done.
    unfold temporary_files in Hf. rewrite !not_elem_of_cons in Hf.
    destruct Hf as (T1 & T2 & T3 & T4 & _).
    by rewrite !lookup_insert_ne by done.
Qed.

Lemma pick_first_writes_requested_reads :
  Shell.writes_requested_reads Shell.pick_first.
Proof.
  intros sd n mate1 mate2 Hn Hle Hlen. unfold Shell.pick_first. cbn [fst snd].
  rewrite !length_take. lia.
Qed.

(** ** The claims on the contents of the output files *)


(** C9.  Sample files of 4000 lines, contaminant files of 1000 lines,
    [p = 0.2], seed 5: the line counts are 3200 and 800, the sizing check
    passes with 800 and 200 reads, the run ends normally, and, with a
    sampler that writes the reads it is asked for, each output file is 3200
    lines of the sample subsample followed by 800 lines of the contaminant
    subsample, 4000 lines in all. *)
Theorem scenario_twenty_percent s1 s2 c1 c2 fs S1 S2 C1 C2 :
  Shell.writes_requested_reads pick →
  Shell.plain s1 = true → Shell.plain s2 = true →
  Shell.plain c1 = true → Shell.plain c2 = true →
  s1 ≠ s2 → c1 ∉ temporary_files 20 → c2 ∉ temporary_files 20 →
  fs !! s1 = Some S1 → fs !! s2 = Some S2 →
  fs !! c1 = Some C1 → fs !! c2 = Some C2 →
  length S1 = 4000%nat → length S2 = 4000%nat →
  length C1 = 1000%nat → length C2 = 1000%nat →
  let sample := pick 5 800 S1 S2 in
  let contaminant := pick 5 200 C1 C2 in
  numOfSampleLines 4000 Examples.p_0_2 = inr 3200
  ∧ numOfContaminantLines 4000 Examples.p_0_2 = inr 800
  ∧ calculateLinesRequired s1 c1 Examples.p_0_2 (initial fs) =
      (Ok (4000, 800, 200), initial fs)
  ∧ ∃ w',
      run (Shell.sh pick)
        (Arguments (Some (s1, s2)) (Some (c1, c2))
           (Some [Examples.p_0_2]) (Some 5)) fs = (Ok tt, w')
      ∧ files w' !! output_name 20 s1 = Some (sample.1 ++ contaminant.1)
      ∧ files w' !! output_name 20 s2 = Some (sample.2 ++ contaminant.2)
      ∧ length sample.1 = 3200%nat ∧ length contaminant.1 = 800%nat
      ∧ length sample.2 = 3200%nat ∧ length contaminant.2 = 800%nat
      ∧ length (sample.1 ++ contaminant.1) = 4000%nat
      ∧ length (sample.2 ++ contaminant.2) = 4000%nat.
Proof.
  intros Hpick Hs1 Hs2 Hc1 Hc2 Hne N1 N2 F1 F2 F3 F4 L1 L2 L3 L4
    sample contaminant.
  assert (numOfSampleLines 4000 Examples.p_0_2 = inr 3200) as Hsl
    by (vm_compute; reflexivity).
  assert (numOfContaminantLines 4000 Examples.p_0_2 = inr 800) as Hcl
    by (vm_compute; reflexivity).
  assert (percent Examples.p_0_2 = inr 20) as Hk by (vm_compute; reflexivity).
  assert (Z.of_nat 4000 = 4000) as Z1 by (vm_compute; reflexivity).
  assert (Z.of_nat 1000 = 1000) as Z2 by (vm_compute; reflexivity).
  assert (calculateLinesRequired s1 c1 Examples.p_0_2 (initial fs) =
            (Ok (4000, 800, 200), initial fs)) as Hcalc.
  { rewrite (calculateLinesRequired_computed s1 c1 _ _ S1 C1 3200 800);
      rewrite ?L1, ?L3, ?Z1, ?Z2; done. }
  split_and!; [done..|].
  destruct (Hpick 5 800 S1 S2) as [A1 A2]; [lia|rewrite L1; lia|congruence|].
  destruct (Hpick 5 200 C1 C2) as [B1 B2]; [lia|rewrite L3; lia|congruence|].
  change (Z.to_nat (4 * 800)) with 3200%nat in A1, A2.
  change (Z.to_nat (4 * 200)) with 800%nat in B1, B2.
  fold sample in A1, A2. fold contaminant in B1, B2.
  destruct (after_simulation_files s1 s2 c1 c2 800 200 5 20 (initial fs)
              S1 S2 C1 C2) as (O1 & O2 & _); try done.
  eexists. split_and!.
  - unfold run. rewrite main_unfold.
    rewrite (bind_Ok _ _ _ _ _
      (checkInputFiles_pass s1 s2 c1 c2 (initial fs) S1 S2 C1 C2
         F1 F2 F3 F4 (eq_trans L1 (eq_sym L2)) (eq_trans L3 (eq_sym L4)))).
    cbn [for_each_proportion].
    by rewrite (bind_Ok _ _ _ _ _
      (process_proportion_after (Shell.sh pick) s1 s2 c1 c2 5 _ _ _ _ _ _ 20
         Hcalc Hk)).
  - by apply O1.
  - done.
  - done.
  - done.
  - done.
  - done.
  - rewrite length_app, A1, B1. reflexivity.
  - rewrite length_app, A2, B2. reflexivity.
Qed.

End Commands.

End ShellFacts.

(** ** Concrete runs in the modelled environment *)


(** C9 with the sampler that takes the first reads. *)
Lemma scenario_twenty_percent_witness :
  ∃ w',
    run (Shell.sh Shell.pick_first)
      (Examples.command_line [Examples.p_0_2] 5)
      (Examples.four_files 4000 4000 1000 1000) = (Ok tt, w')
    ∧ files w' !! "conPercent20_s_R1.fastq" =
        Some (Examples.lines_of 3200 "s1" ++ Examples.lines_of 800 "c1")
    ∧ files w' !! "conPercent20_s_R2.fastq" =
        Some (Examples.lines_of 3200 "s2" ++ Examples.lines_of 800 "c2").
Proof.
  destruct (scenario_twenty_percent Shell.pick_first
    "s_R1.fastq" "s_R2.fastq" "c_R1.fastq" "c_R2.fastq"
    (Examples.four_files 4000 4000 1000 1000)
    (Examples.lines_of 4000 "s1") (Examples.lines_of 4000 "s2")
    (Examples.lines_of 1000 "c1") (Examples.lines_of 1000 "c2"))
    as (_ & _ & _ & w' & Hrun & O1 & O2 & _);
    try (vm_compute; reflexivity);
    try (apply (bool_decide_unpack _); vm_compute; exact I);
    try apply pick_first_writes_requested_reads.
  exists w'. split_and!.
  - exact Hrun.
  - etrans; [exact O1|vm_compute; reflexivity].
  - etrans; [exact O2|vm_compute; reflexivity].
Defined.

(* ===================================================================== *)
(** * Part VI — further properties of the script *)
(* ===================================================================== *)

(** ** How the functions can end *)

Section Outcomes.

Variable shell : string → file_system → file_system * Z.

Lemma checkInputFiles_cases s1 s2 c1 c2 w :
  checkInputFiles s1 s2 c1 c2 w = (Ok tt, w)
  ∨ checkInputFiles s1 s2 c1 c2 w = (SysExit None, say w sample_mismatch)
  ∨ checkInputFiles s1 s2 c1 c2 w = (SysExit None, say w contaminant_mismatch)
  ∨ checkInputFiles s1 s2 c1 c2 w = (Uncaught IOError, w).
Proof.
  unfold checkInputFiles, countFileLines. unfold_M.
  destruct (files w !! s1) as [S1|]; [|by (repeat right)].
  destruct (files w !! s2) as [S2|]; [|by (repeat right)].
  destruct (Z.of_nat (length S1) =? Z.of_nat (length S2)); cbn [negb];
    [|by (right; left)].
  destruct (files w !! c1) as [C1|]; [|by (repeat right)].
  destruct (files w !! c2) as [C2|]; [|by (repeat right)].
  destruct (Z.of_nat (length C1) =? Z.of_nat (length C2)); cbn [negb];
    [by left|by (right; right; left)].
Qed.

Lemma calculateLinesRequired_cases s1 c1 p w :
  (∃ n ns nc, calculateLinesRequired s1 c1 p w = (Ok (n, ns, nc), w))
  ∨ (∃ cl, calculateLinesRequired s1 c1 p w
             = (SysExit None, say w (too_small cl p)))
  ∨ (∃ e, calculateLinesRequired s1 c1 p w = (Uncaught e, w)).
Proof.
  destruct (files w !! s1) as [Ls|] eqn:H1.
  2:{ right; right. exists IOError. unfold calculateLinesRequired.
      by rewrite (bind_Uncaught _ _ _ _ _ (countFileLines_None _ _ H1)). }
  destruct (numOfSampleLines (Z.of_nat (length Ls)) p) as [e|sl] eqn:Hs.
  { right; right. exists e. unfold calculateLinesRequired.
    rewrite (bind_Ok _ _ _ _ _ (countFileLines_Some _ _ _ H1)).
    by rewrite Hs. }
  destruct (numOfContaminantLines (Z.of_nat (length Ls)) p) as [e|cl] eqn:Hc.
  { right; right. exists e. unfold calculateLinesRequired.
    rewrite (bind_Ok _ _ _ _ _ (countFileLines_Some _ _ _ H1)).
    rewrite (bind_Ok _ _ _ _ _ (eval_inr _ _ _ Hs)).
    by rewrite Hc. }
  destruct (files w !! c1) as [Lc|] eqn:H2.
  - rewrite (calculateLinesRequired_computed s1 c1 p w Ls Lc sl cl H1 H2 Hs Hc).
    destruct (_ <? _); [by (right; left; eexists)|by (left; do 3 eexists)].
  - right; right. exists IOError. unfold calculateLinesRequired.
    rewrite (bind_Ok _ _ _ _ _ (countFileLines_Some _ _ _ H1)).
    rewrite (bind_Ok _ _ _ _ _ (eval_inr _ _ _ Hs)).
    rewrite (bind_Ok _ _ _ _ _ (eval_inr _ _ _ Hc)).
    by rewrite (bind_Uncaught _ _ _ _ _ (countFileLines_None _ _ H2)).
Qed.

Lemma simulateContamination_raises s1 s2 c1 c2 p ns nc sd w e :
  percent p = inl e →
  simulateContamination shell s1 s2 c1 c2 p ns nc sd w = (Uncaught e, w).
Proof. intros Hk. unfold simulateContamination. by rewrite Hk. Qed.

Lemma process_proportion_uncaught s1 s2 c1 c2 sd p w e w' :
  calculateLinesRequired s1 c1 p w = (Uncaught e, w') →
  process_proportion shell s1 s2 c1 c2 sd p w = (Uncaught e, w').
Proof.
  intros H. unfold process_proportion. by rewrite (bind_Uncaught _ _ _ _ _ H).
Qed.

(** One iteration ends in one of three ways: the three commands have run,
    the sizing message has been printed, or an exception escapes with the
    world untouched. *)
Lemma process_proportion_cases s1 s2 c1 c2 sd p w :
  (∃ s k ns nc,
     sd = Some s ∧ percent p = inr k
     ∧ process_proportion shell s1 s2 c1 c2 sd p w
       = (Ok tt, after_simulation shell s1 s2 c1 c2 ns nc s k w))
  ∨ (∃ cl, process_proportion shell s1 s2 c1 c2 sd p w
             = (SysExit None, say w (too_small cl p)))
  ∨ (∃ e, process_proportion shell s1 s2 c1 c2 sd p w = (Uncaught e, w)).
Proof.
  destruct (calculateLinesRequired_cases s1 c1 p w)
    as [(n & ns & nc & Hc)|[(cl & Hc)|(e & Hc)]].
  - destruct (percent p) as [e|k] eqn:Hk.
    + right; right. exists e.
      rewrite (process_proportion_pass shell _ s2 _ c2 sd _ _ _ _ _ Hc).
      by rewrite (bind_Uncaught _ _ _ _ _
        (simulateContamination_raises s1 s2 c1 c2 p ns nc sd w e Hk)).
    + destruct sd as [s|].
      * left. exists s, k, ns, nc. split; [done|]. split; [done|].
        exact (process_proportion_after shell _ _ _ _ _ _ _ _ _ _ _ _ Hc Hk).
      * right; right. exists TypeError.
        rewrite (process_proportion_pass shell _ s2 _ c2 None _ _ _ _ _ Hc).
        by rewrite (bind_Uncaught _ _ _ _ _
          (simulateContamination_no_seed shell s1 s2 c1 c2 p ns nc k w Hk)).
  - right; left. exists cl. by apply process_proportion_exit.
  - right; right. exists e. by apply process_proportion_uncaught.
Qed.

(** The loop: [done] iterations ran their three commands before the loop
    ended; nothing is printed unless the loop ends on the sizing message. *)
Lemma for_each_proportion_cases s1 s2 c1 c2 sd props w :
  ∃ done : nat,
    let r := for_each_proportion shell s1 s2 c1 c2 sd props w in
    length (issued r.2) = (length (issued w) + 3 * done)%nat
    ∧ (done ≤ length props)%nat
    ∧ match r.1 with
      | Ok _ => done = length props ∧ stdout r.2 = stdout w
      | SysExit c =>
          c = None ∧ ∃ cl p, p ∈ props ∧ stdout r.2 = stdout w ++ [too_small cl p]
      | Uncaught _ => stdout r.2 = stdout w
      end.
Proof.
  revert w. induction props as [|p props IH]; intros w.
  - exists 0%nat. cbn. split; [lia|]. done.
  - cbn [for_each_proportion].
    destruct (process_proportion_cases s1 s2 c1 c2 sd p w)
      as [(s & k & ns & nc & -> & Hk & Hp)|[(cl & Hp)|(e & Hp)]].
    + rewrite (bind_Ok _ _ _ _ _ Hp).
      destruct (IH (after_simulation shell s1 s2 c1 c2 ns nc s k w))
        as (d & Hlen & Hle & Hout).
      exists (S d). cbv zeta in *. rewrite Hlen.
      rewrite after_simulation_issued, length_app. cbn [length].
      split; [lia|]. split; [lia|].
      destruct (for_each_proportion _ _ _ _ _ _ _ _).1 as [[]|c|e].
      * destruct Hout as [-> Hout]. by rewrite Hout.
      * destruct Hout as (-> & cl & q & Hq & Hout). split; [done|].
        exists cl, q. split; [by right|]. by rewrite Hout.
      * by rewrite Hout.
    + rewrite (bind_SysExit _ _ _ _ _ Hp). exists 0%nat. cbn.
      split; [lia|]. split; [lia|]. split; [done|].
      exists cl, p. split; [by left|done].
    + rewrite (bind_Uncaught _ _ _ _ _ Hp). exists 0%nat. cbn.
      split; [lia|]. split; [lia|]. done.
Qed.

(** The whole run. *)
Lemma run_cases a fs :
  ∃ done : nat,
    let r := run shell a fs in
    length (issued r.2) = (3 * done)%nat
    ∧ (∀ props, proportionContaminant a = Some props →
         (done ≤ length props)%nat ∧ (r.1 = Ok tt → done = length props))
    ∧ match r.1 with
      | SysExit c =>
          c = None
          ∧ ∃ line, stdout r.2 = [line]
              ∧ (line = sample_mismatch ∨ line = contaminant_mismatch
                 ∨ ∃ cl p, line = too_small cl p)
      | _ => stdout r.2 = []
      end.
Proof.
  destruct a as [[[s1 s2]|] [[c1 c2]|] ps sd]; unfold run;
    try (exists 0%nat; cbn; split; [done|]; split; [|done];
         intros props _; split; [lia|done]).
  rewrite main_unfold.
  destruct (checkInputFiles_cases s1 s2 c1 c2 (initial fs))
    as [Hc|[Hc|[Hc|Hc]]].
  - rewrite (bind_Ok _ _ _ _ _ Hc). destruct ps as [props|].
    + destruct (for_each_proportion_cases s1 s2 c1 c2 sd props (initial fs))
        as (d & Hlen & Hle & Hout).
      exists d. cbv zeta in *. cbn [proportionContaminant].
      split; [by rewrite Hlen|]. split.
      * intros ? [= <-]. split; [done|]. intros Hok. rewrite Hok in Hout.
        by destruct Hout.
      * destruct (for_each_proportion _ _ _ _ _ _ _ _).1 as [[]|c|e].
        -- by destruct Hout.
        -- destruct Hout as (-> & cl & q & _ & Hout). split; [done|].
           exists (too_small cl q). split; [done|]. right; right. by (do 2 eexists).
        -- done.
    + exists 0%nat. cbn. split; [done|]. split; [|done]. by intros props.
  - rewrite (bind_SysExit _ _ _ _ _ Hc). exists 0%nat. cbn.
    split; [done|]. split; [intros props _; split; [lia|done]|].
    split; [done|]. exists sample_mismatch. split; [done|by left].
  - rewrite (bind_SysExit _ _ _ _ _ Hc). exists 0%nat. cbn.
    split; [done|]. split; [intros props _; split; [lia|done]|].
    split; [done|]. exists contaminant_mismatch. split; [done|by (right; left)].
  - rewrite (bind_Uncaught _ _ _ _ _ Hc). exists 0%nat. cbn.
    split; [done|]. split; [intros props _; split; [lia|done]|]. done.
Qed.

End Outcomes.

(** ** Statuses of the commands; where the files change *)

(** Two environments whose commands change the files alike, whatever
    statuses they return. *)
Section SameFiles.

Variables shell shell' : string → file_system → file_system * Z.
Hypothesis same_files : ∀ cmd fs, (shell cmd fs).1 = (shell' cmd fs).1.

Lemma after_call_same_files cmd w :
  after_call shell cmd w = after_call shell' cmd w.
Proof using same_files. unfold after_call. by rewrite same_files. Qed.

Lemma after_simulation_same_files s1 s2 c1 c2 ns nc sd k w :
  after_simulation shell s1 s2 c1 c2 ns nc sd k w =
  after_simulation shell' s1 s2 c1 c2 ns nc sd k w.
Proof using same_files.
  unfold after_simulation. by rewrite !after_call_same_files.
Qed.

Lemma simulateContamination_same_files s1 s2 c1 c2 p ns nc sd w :
  (simulateContamination shell s1 s2 c1 c2 p ns nc sd ≫= λ _, mret tt) w =
  (simulateContamination shell' s1 s2 c1 c2 p ns nc sd ≫= λ _, mret tt) w.
Proof using same_files.
  destruct (percent p) as [e|k] eqn:Hk.
  - by rewrite !(bind_Uncaught _ _ _ _ _
      (simulateContamination_raises _ s1 s2 c1 c2 p ns nc sd w e Hk)).
  - destruct sd as [s|].
    + destruct (simulateContamination_after shell s1 s2 c1 c2 p ns nc s k w Hk)
        as [rc Hsim].
      destruct (simulateContamination_after shell' s1 s2 c1 c2 p ns nc s k w Hk)
        as [rc' Hsim'].
      rewrite (bind_Ok _ _ _ _ _ Hsim), (bind_Ok _ _ _ _ _ Hsim').
      by rewrite after_simulation_same_files.
    + by rewrite !(bind_Uncaught _ _ _ _ _
        (simulateContamination_no_seed _ s1 s2 c1 c2 p ns nc k w Hk)).
Qed.

Lemma process_proportion_same_files s1 s2 c1 c2 sd p w :
  process_proportion shell s1 s2 c1 c2 sd p w =
  process_proportion shell' s1 s2 c1 c2 sd p w.
Proof using same_files.
  unfold process_proportion. apply bind_ext; [done|].
  intros [[n ns] nc] w1. apply simulateContamination_same_files.
Qed.

Lemma for_each_proportion_same_files s1 s2 c1 c2 sd ps w :
  for_each_proportion shell s1 s2 c1 c2 sd ps w =
  for_each_proportion shell' s1 s2 c1 c2 sd ps w.
Proof using same_files.
  revert w. induction ps as [|p ps IH]; intros w; [done|]. simpl.
  apply bind_ext; [apply process_proportion_same_files|]. intros _. apply IH.
Qed.

End SameFiles.

(** The files change only through the commands: a property of the file
    system that every command keeps is kept by every function. *)
Section FilesInvariant.

Variable shell : string → file_system → file_system * Z.
Variable P : file_system → Prop.
Hypothesis shell_keeps : ∀ cmd fs, P fs → P (shell cmd fs).1.

Lemma after_simulation_keeps s1 s2 c1 c2 ns nc sd k w :
  P (files w) → P (files (after_simulation shell s1 s2 c1 c2 ns nc sd k w)).
Proof using shell_keeps.
  intros Hw. unfold after_simulation, after_call. cbn [files].
  by do 3 apply shell_keeps.
Qed.

Lemma for_each_proportion_keeps s1 s2 c1 c2 sd props w :
  P (files w) →
  P (files (for_each_proportion shell s1 s2 c1 c2 sd props w).2).
Proof using shell_keeps.
  revert w. induction props as [|p props IH]; intros w Hw; [done|].
  cbn [for_each_proportion].
  destruct (process_proportion_cases shell s1 s2 c1 c2 sd p w)
    as [(s & k & ns & nc & -> & Hk & Hp)|[(cl & Hp)|(e & Hp)]].
  - rewrite (bind_Ok _ _ _ _ _ Hp). by apply IH, after_simulation_keeps.
  - by rewrite (bind_SysExit _ _ _ _ _ Hp).
  - by rewrite (bind_Uncaught _ _ _ _ _ Hp).
Qed.

Lemma main_keeps a w : P (files w) → P (files (main shell a w).2).
Proof using shell_keeps.
  intros Hw. destruct a as [[[s1 s2]|] [[c1 c2]|] ps sd]; try done.
  rewrite main_unfold.
  destruct (checkInputFiles_cases s1 s2 c1 c2 w) as [Hc|[Hc|[Hc|Hc]]].
  - rewrite (bind_Ok _ _ _ _ _ Hc). destruct ps as [props|]; [|done].
    by apply for_each_proportion_keeps.
  - by rewrite (bind_SysExit _ _ _ _ _ Hc).
  - by rewrite (bind_SysExit _ _ _ _ _ Hc).
  - by rewrite (bind_Uncaught _ _ _ _ _ Hc).
Qed.

End FilesInvariant.

(** ** Statements *)

Section More.

Variable shell : string → file_system → file_system * Z.

(** X1.  A missing input file ends the run with an uncaught [IOError]
    before anything is printed or issued: the first sample file, or the
    second one, or, once the sample files have been counted equal, the first
    or the second contaminant file.  This holds whatever [-p] and [-s] are. *)
Theorem missing_input_file_raises s1 s2 c1 c2 props sd fs :
  fs !! s1 = None
  ∨ (is_Some (fs !! s1) ∧ fs !! s2 = None)
  ∨ (∃ S1 S2, fs !! s1 = Some S1 ∧ fs !! s2 = Some S2
       ∧ length S1 = length S2
       ∧ (fs !! c1 = None ∨ (is_Some (fs !! c1) ∧ fs !! c2 = None))) →
  run shell (Arguments (Some (s1, s2)) (Some (c1, c2)) props sd) fs
    = (Uncaught IOError, initial fs).
Proof.
  intros H. unfold run. rewrite main_unfold.
  assert (checkInputFiles s1 s2 c1 c2 (initial fs)
            = (Uncaught IOError, initial fs)) as Hc;
    [|by rewrite (bind_Uncaught _ _ _ _ _ Hc)].
  unfold checkInputFiles.
  destruct H as [H1|[[[S1 H1] H2]|(S1 & S2 & H1 & H2 & HL & H)]].
  - by rewrite (bind_Uncaught _ _ _ _ _ (countFileLines_None _ (initial fs) H1)).
  - rewrite (bind_Ok _ _ _ _ _ (countFileLines_Some _ (initial fs) _ H1)).
    by rewrite (bind_Uncaught _ _ _ _ _ (countFileLines_None _ (initial fs) H2)).
  - rewrite (bind_Ok _ _ _ _ _ (countFileLines_Some _ (initial fs) _ H1)).
    rewrite (bind_Ok _ _ _ _ _ (countFileLines_Some _ (initial fs) _ H2)).
    rewrite HL, Z.eqb_refl. cbn [negb].
    erewrite bind_Ok; [|done].
    destruct H as [H3|[[C1 H3] H4]].
    + by rewrite (bind_Uncaught _ _ _ _ _
        (countFileLines_None _ (initial fs) H3)).
    + rewrite (bind_Ok _ _ _ _ _ (countFileLines_Some _ (initial fs) _ H3)).
      by rewrite (bind_Uncaught _ _ _ _ _
        (countFileLines_None _ (initial fs) H4)).
Qed.

(** X2.  The sample pair is checked first: when the two sample files differ
    in line count the run prints the sample message and exits without
    opening the contaminant files, which need not exist, and whatever [-p]
    and [-s] are (even absent). *)
Theorem sample_mismatch_comes_first s1 s2 c1 c2 props sd fs S1 S2 :
  fs !! s1 = Some S1 → fs !! s2 = Some S2 → length S1 ≠ length S2 →
  run shell (Arguments (Some (s1, s2)) (Some (c1, c2)) props sd) fs
    = (SysExit None, say (initial fs) sample_mismatch).
Proof.
  intros H1 H2 Hne. unfold run. rewrite main_unfold.
  by rewrite (bind_SysExit _ _ _ _ _
    (checkInputFiles_sample_mismatch s1 s2 c1 c2 (initial fs) S1 S2 H1 H2 Hne)).
Qed.

(** X3.  Without [-f] or without [-c] the run dies of a [TypeError]
    ([None[0]]) before any file is opened: the outcome is the same on
    every file system. *)
Theorem missing_file_options_raise a fs :
  sampleFiles a = None ∨ contaminantFiles a = None →
  run shell a fs = (Uncaught TypeError, initial fs).
Proof.
  destruct a as [[[s1 s2]|] [[c1 c2]|] ps sd]; cbn [sampleFiles contaminantFiles];
    intros [H|H]; done.
Qed.

(** X4.  Without [-s], a run whose first proportion passes the sizing check
    dies of a [TypeError] at the first sampling ([%d] of [None]): no
    command has been issued and nothing was printed. *)
Theorem missing_seed_raises s1 s2 c1 c2 p rest fs S1 S2 C1 C2 r w0 k :
  fs !! s1 = Some S1 → fs !! s2 = Some S2 →
  fs !! c1 = Some C1 → fs !! c2 = Some C2 →
  length S1 = length S2 → length C1 = length C2 →
  calculateLinesRequired s1 c1 p (initial fs) = (Ok r, w0) →
  percent p = inr k →
  run shell (Arguments (Some (s1, s2)) (Some (c1, c2)) (Some (p :: rest)) None)
      fs
    = (Uncaught TypeError, initial fs).
Proof.
  intros H1 H2 H3 H4 L1 L2 Hcalc Hk. unfold run. rewrite main_unfold.
  rewrite (bind_Ok _ _ _ _ _
    (checkInputFiles_pass s1 s2 c1 c2 (initial fs) S1 S2 C1 C2
       H1 H2 H3 H4 L1 L2)).
  cbn [for_each_proportion].
  pose proof (calculateLinesRequired_pure _ _ _ _ _ _ Hcalc) as ->.
  destruct r as [[n ns] nc].
  assert (process_proportion shell s1 s2 c1 c2 None p (initial fs)
            = (Uncaught TypeError, initial fs)) as Hp;
    [|by rewrite (bind_Uncaught _ _ _ _ _ Hp)].
  rewrite (process_proportion_pass shell _ s2 _ c2 None _ _ _ _ _ Hcalc).
  by rewrite (bind_Uncaught _ _ _ _ _
    (simulateContamination_no_seed shell s1 s2 c1 c2 p ns nc k _ Hk)).
Qed.

(** X5.  The statuses the commands return are never looked at: two
    environments whose commands change the files alike give the same run
    (outcome, files, output and command log), whatever statuses they
    return.  A sampler or a shell that fails goes unnoticed. *)
Theorem command_statuses_are_ignored
    (shell' : string → file_system → file_system * Z) a fs :
  (∀ cmd fs, (shell cmd fs).1 = (shell' cmd fs).1) →
  run shell a fs = run shell' a fs.
Proof.
  intros Hsame. unfold run, main.
  repeat (apply bind_ext; [done|]; intros).
  destruct (proportionContaminant a); [|done].
  by apply for_each_proportion_same_files.
Qed.

(** X6.  The script changes the files only through the commands it issues:
    a property of the file system that every command preserves still holds
    when the run ends, however it ends. *)
Theorem files_change_only_through_commands
    (P : file_system → Prop) a fs :
  (∀ cmd fs, P fs → P (shell cmd fs).1) →
  P fs → P (files (run shell a fs).2).
Proof. intros Hkeep Hfs. unfold run. by apply main_keeps. Qed.

(** X7.  A run prints at most one line, and exactly when it ends by
    [sys.exit()]: the exit carries no status, and the line is one of the
    three messages.  A run that ends normally or by an exception has
    printed nothing. *)
Theorem prints_exactly_when_it_exits a fs :
  match (run shell a fs).1 with
  | SysExit c =>
      c = None
      ∧ ∃ line, stdout (run shell a fs).2 = [line]
          ∧ (line = sample_mismatch ∨ line = contaminant_mismatch
             ∨ ∃ cl p, line = too_small cl p)
  | _ => stdout (run shell a fs).2 = []
  end.
Proof. by destruct (run_cases shell a fs) as (d & _ & _ & H). Qed.

(** X8.  Commands are issued three at a time, one group per proportion, at
    most one group per requested proportion: nothing can end the run
    between the first sampling of a proportion and its combining command.
    A run that ends normally has issued the three commands of every
    proportion. *)
Theorem commands_come_in_threes a fs :
  ∃ done : nat,
    length (issued (run shell a fs).2) = (3 * done)%nat
    ∧ ∀ props, proportionContaminant a = Some props →
        (done ≤ length props)%nat
        ∧ ((run shell a fs).1 = Ok tt → done = length props).
Proof.
  destruct (run_cases shell a fs) as (d & Hlen & Hdone & _). by exists d.
Qed.

End More.

(** ** Names *)

Section MoreNames.

(** Two numerals followed by the same non-digit agree as soon as the whole
    strings do. *)
Lemma numeric_prefix_unique c a b r r' :
  numeric_char c = false → numeric a = true → numeric b = true →
  a +:+ String c r = b +:+ String c r' → a = b.
Proof.
  intros Hc. revert b.
  induction a as [|x a IH]; intros [|y b] Ha Hb E; simpl in *.
  - done.
  - apply andb_prop in Hb as [Hy _]. simplify_eq. congruence.
  - apply andb_prop in Ha as [Hx _]. simplify_eq. congruence.
  - apply andb_prop in Ha as [_ Ha]. apply andb_prop in Hb as [_ Hb].
    simplify_eq. f_equal. by apply IH.
Qed.

Lemma dec_suffix_inj k k' c r r' :
  numeric_char c = false →
  dec k +:+ String c r = dec k' +:+ String c r' → k = k'.
Proof.
  intros Hc E. apply dec_inj.
  eapply numeric_prefix_unique; eauto using numeric_dec.
Qed.

(** X9.  The names built for one proportion never clash: an output file is
    never named like a temporary file (of any percentage, for any sample
    file name), the four temporary files of a percentage are pairwise
    different, and two different percentages share no temporary file. *)
Theorem temporary_names_never_clash k k' f :
  (output_name k' f ∉ temporary_files k)
  ∧ NoDup (temporary_files k)
  ∧ (k ≠ k' → ∀ t, t ∈ temporary_files k → t ∉ temporary_files k').
Proof.
  split; [apply output_name_not_temporary|].
  split; [apply temporary_files_distinct|].
  intros Hne t Ht Ht'. unfold temporary_files in Ht, Ht'.
  rewrite !elem_of_cons, elem_of_nil in Ht.
  rewrite !elem_of_cons, elem_of_nil in Ht'.
  unfold temp_sample, temp_contaminant in *.
  destruct Ht as [->|[->|[->|[->|[]]]]];
    destruct Ht' as [E|[E|[E|[E|[]]]]]; simplify_eq/=;
    by apply dec_suffix_inj in E.
Qed.

End MoreNames.

(** ** The command line as the shell splits it *)

Section MoreWords.

#[local] Arguments String.append : simpl nomatch.

(** X10.  The sampler command is built without quoting.  A prefix and file
    names that are words (not empty, no blank) reach the sampler as single
    arguments, nine words in all; a first file name with a blank in it
    arrives as two arguments. *)
Theorem file_names_are_not_quoted n pre sd f2 :
  Shell.is_word pre = true → Shell.is_word f2 = true →
  (∀ f1, Shell.is_word f1 = true →
     Shell.words (sample_command n pre sd f1 f2) =
       ["fastq-sample"; "-n"; dec n; "-o"; pre; "-s"; dec sd; f1; f2])
  ∧ (∀ a b, Shell.is_word a = true → Shell.is_word b = true →
       Shell.words (sample_command n pre sd (a +:+ " " +:+ b) f2) =
         ["fastq-sample"; "-n"; dec n; "-o"; pre; "-s"; dec sd; a; b; f2]).
Proof.
  intros Hpre Hf2. split.
  - intros f1 Hf1. rewrite sample_command_unwords. apply words_unwords.
    repeat constructor; try done; apply is_word_dec.
  - intros a b Ha Hb.
    assert (sample_command n pre sd (a +:+ " " +:+ b) f2 =
            Shell.unwords
              ["fastq-sample"; "-n"; dec n; "-o"; pre; "-s"; dec sd; a; b; f2])
      as ->.
    { unfold sample_command. cbn [Shell.unwords].
      rewrite !string_app_assoc. reflexivity. }
    apply words_unwords. repeat constructor; try done; apply is_word_dec.
Qed.

End MoreWords.

(** ** Proportions in the unit interval *)

Section MoreFloats.

Variable shell : string → file_system → file_system * Z.

(** [int(p * 100)] of a double in [[0, 1]]. *)
Lemma percent_defined p :
  PyFloat.valid p = true →
  PyFloat.leb (PyFloat.of_int 0) p = true →
  PyFloat.leb p (PyFloat.of_int 1) = true →
  ∃ k, percent p = inr k
       ∧ PyFloat.floor (PyFloat.mul p (PyFloat.of_int 100)) = Some k ∧ 0 ≤ k.
Proof.
  intros Hv H0 H1.
  pose proof (unit_interval_below p Hv H0 H1) as Bp.
  pose proof (of_int_bound 100 ltac:(lia)) as B100.
  exact (to_int_floor _ _ (mul_bound 1 64 _ _ Bp B100 ltac:(lia))).
Qed.

(** X11.  For a proportion that is a double in [[0, 1]], a sample file of
    fewer than 2^63 lines and a seed, no conversion raises: the integer
    percentage is defined and not negative, and the iteration either runs
    its three commands or stops on the sizing message.  No exception
    escapes. *)
Theorem proportion_in_unit_interval_never_raises
    s1 s2 c1 c2 sd p w Ls Lc :
  files w !! s1 = Some Ls → files w !! c1 = Some Lc →
  Z.of_nat (length Ls) < 2 ^ 63 →
  PyFloat.valid p = true →
  PyFloat.leb (PyFloat.of_int 0) p = true →
  PyFloat.leb p (PyFloat.of_int 1) = true →
  ∃ k sl cl,
    percent p = inr k ∧ 0 ≤ k ∧ 0 ≤ sl ∧ 0 ≤ cl
    ∧ process_proportion shell s1 s2 c1 c2 (Some sd) p w =
        (if Z.of_nat (length Lc) <? cl
         then (SysExit None, say w (too_small cl p))
         else (Ok tt,
               after_simulation shell s1 s2 c1 c2 (sl / 4) (cl / 4) sd k w)).
Proof.
  intros H1 H2 Hn Hv H0 H1'.
  destruct (percent_defined p Hv H0 H1') as (k & Hk & _ & Hk0).
  assert (0 ≤ Z.of_nat (length Ls) < 2 ^ 63) as Hrange by lia.
  pose proof (of_int_bound _ Hrange) as Bn.
  pose proof (sub_one_bound p Hv H0 H1') as Bq.
  pose proof (unit_interval_below p Hv H0 H1') as Bp.
  destruct (to_int_floor _ _ (mul_bound 64 2 _ _ Bn Bq ltac:(lia)))
    as (sl & Hsl & _ & Hsl0).
  destruct (to_int_floor _ _ (mul_bound 64 1 _ _ Bn Bp ltac:(lia)))
    as (cl & Hcl & _ & Hcl0).
  rewrite <- (numOfSampleLines_finite _ _ _ _ Bn) in Hsl.
  rewrite <- (numOfContaminantLines_finite _ _ _ _ Bn) in Hcl.
  exists k, sl, cl. repeat split; try done.
  destruct (Z.ltb_spec (Z.of_nat (length Lc)) cl) as [Hlt|Hle].
  - apply process_proportion_exit. by eapply sizing_failure.
  - by eapply process_proportion_done.
Qed.

Lemma p_1_value : Examples.p_1 = S754_finite false 4503599627370496 (-52).
Proof. vm_compute. reflexivity. Qed.

(** [int(n * 1.0)] is [n] for every line count below [2^53]. *)
Lemma whole_exact n :
  0 ≤ n < 2 ^ 53 →
  PyFloat.to_int (PyFloat.mul (PyFloat.of_int n) Examples.p_1) = inr n.
Proof.
  intros [Hn Hlt]. destruct (decide (n = 0)) as [->|Hnz]; [done|].
  destruct (of_int_exact n ltac:(lia)) as (m & e & -> & Hd & He & Hm).
  rewrite p_1_value. unfold PyFloat.mul, SFmul. cbn [xorb].
  assert ((m * 4503599627370496)%positive = Pos.iter xO m 52) as ->.
  { apply Pos2Z.inj. rewrite Pos2Z.inj_mul, iter_xO_value. by rewrite pow2_52. }
  rewrite binary_round_aux_shift by lia.
  unfold PyFloat.to_int, cond_Zopp. f_equal.
  replace (e + -52 + 52) with (- (- e)) by lia.
  rewrite <- Z.shiftr_opp_r, Z.opp_involutive, Z.shiftr_div_pow2 by lia.
  rewrite Hm. apply Z.div_mul.
  apply Z.pow_nonzero; lia.
Qed.

(** [int(n * 0.0)] is 0. *)
Lemma none_exact n :
  0 ≤ n < 2 ^ 53 →
  PyFloat.to_int (PyFloat.mul (PyFloat.of_int n) Examples.p_0) = inr 0.
Proof.
  intros [Hn Hlt]. destruct (decide (n = 0)) as [->|Hnz]; [done|].
  by destruct (of_int_exact n ltac:(lia)) as (m & e & -> & _).
Qed.

(** X12.  The two ends of the range, for a sample file of fewer than 2^53
    lines.  With [p = 0] every sample line is requested and no contaminant
    line, so the sizing check passes whatever the size of the contaminant
    file; with [p = 1] no sample line is requested and as many contaminant
    lines as the sample file has, so the check passes exactly when the
    contaminant file is at least as long.  The percentages are 0 and 100. *)
Theorem proportion_zero_and_one s1 c1 w Ls Lc :
  files w !! s1 = Some Ls → files w !! c1 = Some Lc →
  Z.of_nat (length Ls) < 2 ^ 53 →
  let n := Z.of_nat (length Ls) in
  calculateLinesRequired s1 c1 Examples.p_0 w = (Ok (n, n / 4, 0), w)
  ∧ calculateLinesRequired s1 c1 Examples.p_1 w =
      (if Z.of_nat (length Lc) <? n
       then (SysExit None, say w (too_small n Examples.p_1))
       else (Ok (n, 0, n / 4), w))
  ∧ percent Examples.p_0 = inr 0 ∧ percent Examples.p_1 = inr 100.
Proof.
  intros H1 H2 Hn n.
  assert (0 ≤ n < 2 ^ 53) as Hrange by (unfold n; lia).
  assert (PyFloat.sub (PyFloat.of_int 1) Examples.p_0 = Examples.p_1) as E0
    by (vm_compute; reflexivity).
  assert (PyFloat.sub (PyFloat.of_int 1) Examples.p_1 = Examples.p_0) as E1
    by (vm_compute; reflexivity).
  pose proof (of_int_bound n ltac:(lia)) as Bn.
  split; [|split; [|split; vm_compute; reflexivity]].
  - rewrite (calculateLinesRequired_computed s1 c1 _ w Ls Lc n 0 H1 H2).
    + by destruct (Z.ltb_spec (Z.of_nat (length Lc)) 0); [lia|].
    + rewrite (numOfSampleLines_finite _ _ _ _ Bn), E0. by apply whole_exact.
    + rewrite (numOfContaminantLines_finite _ _ _ _ Bn). by apply none_exact.
  - rewrite (calculateLinesRequired_computed s1 c1 _ w Ls Lc 0 n H1 H2).
    + done.
    + rewrite (numOfSampleLines_finite _ _ _ _ Bn), E1. by apply none_exact.
    + rewrite (numOfContaminantLines_finite _ _ _ _ Bn). by apply whole_exact.
Qed.

End MoreFloats.

(** ** What a passed sizing check guarantees *)

Section MoreSizing.

(** X13.  When [calculateLinesRequired] returns, its results are the line
    count of the first sample file and the quarters (floor division) of the
    two computed line counts, and the guard has bounded the contaminant
    request: four lines per requested contaminant read do not exceed the
    lines of the first contaminant file. *)
Theorem sizing_guard_bounds_contaminant_request s1 c1 p w n ns nc w' Lc :
  calculateLinesRequired s1 c1 p w = (Ok (n, ns, nc), w') →
  files w !! c1 = Some Lc →
  ∃ Ls sl cl,
    files w !! s1 = Some Ls ∧ n = Z.of_nat (length Ls)
    ∧ numOfSampleLines n p = inr sl ∧ numOfContaminantLines n p = inr cl
    ∧ ns = sl / 4 ∧ nc = cl / 4
    ∧ cl ≤ Z.of_nat (length Lc) ∧ 4 * nc ≤ Z.of_nat (length Lc).
Proof.
  intros Hcalc H2.
  destruct (files w !! s1) as [Ls|] eqn:H1.
  2:{ unfold calculateLinesRequired in Hcalc.
      by rewrite (bind_Uncaught _ _ _ _ _ (countFileLines_None _ _ H1))
        in Hcalc. }
  destruct (numOfSampleLines (Z.of_nat (length Ls)) p) as [e|sl] eqn:Hs.
  { unfold calculateLinesRequired in Hcalc.
    rewrite (bind_Ok _ _ _ _ _ (countFileLines_Some _ _ _ H1)) in Hcalc.
    by rewrite Hs in Hcalc. }
  destruct (numOfContaminantLines (Z.of_nat (length Ls)) p) as [e|cl] eqn:Hc.
  { unfold calculateLinesRequired in Hcalc.
    rewrite (bind_Ok _ _ _ _ _ (countFileLines_Some _ _ _ H1)) in Hcalc.
    rewrite (bind_Ok _ _ _ _ _ (eval_inr _ _ _ Hs)) in Hcalc.
    by rewrite Hc in Hcalc. }
  rewrite (calculateLinesRequired_computed s1 c1 p w Ls Lc sl cl H1 H2 Hs Hc)
    in Hcalc.
  destruct (Z.ltb_spec (Z.of_nat (length Lc)) cl) as [Hlt|Hle]; [done|].
  simplify_eq. exists Ls, sl, cl. repeat split; try done.
  pose proof (Z.mul_div_le cl 4 ltac:(lia)). lia.
Qed.

End MoreSizing.

(** ** Concrete runs for the further properties *)

Lemma missing_input_file_raises_witness :
  run Examples.quiet
    (Arguments (Some ("s_R1.fastq", "absent.fastq"))
       (Some ("c_R1.fastq", "c_R2.fastq")) (Some [Examples.p_0_2]) (Some 5))
    (Examples.four_files 8 8 8 8)
  = (Uncaught IOError, initial (Examples.four_files 8 8 8 8)).
Proof.
  apply missing_input_file_raises. right; left. split.
  - eexists. vm_compute. reflexivity.
  - vm_compute. reflexivity.
Defined.

Lemma sample_mismatch_comes_first_witness :
  run Examples.quiet
    (Arguments (Some ("s_R1.fastq", "s_R2.fastq"))
       (Some ("absent_R1.fastq", "absent_R2.fastq")) None None)
    (Examples.four_files 8 12 8 8)
  = (SysExit None, say (initial (Examples.four_files 8 12 8 8)) sample_mismatch).
Proof.
  apply (sample_mismatch_comes_first Examples.quiet
           "s_R1.fastq" "s_R2.fastq" "absent_R1.fastq" "absent_R2.fastq"
           None None (Examples.four_files 8 12 8 8)
           (Examples.lines_of 8 "s1") (Examples.lines_of 12 "s2"));
    vm_compute; [reflexivity|reflexivity|discriminate].
Defined.

Lemma missing_file_options_raise_witness :
  run Examples.quiet
    (Arguments None (Some ("c_R1.fastq", "c_R2.fastq"))
       (Some [Examples.p_0_2]) (Some 5))
    (Examples.four_files 8 8 8 8)
  = (Uncaught TypeError, initial (Examples.four_files 8 8 8 8)).
Proof. apply missing_file_options_raise. left. reflexivity. Defined.

Lemma missing_seed_raises_witness :
  run Examples.quiet
    (Arguments (Some ("s_R1.fastq", "s_R2.fastq"))
       (Some ("c_R1.fastq", "c_R2.fastq")) (Some [Examples.p_0_5]) None)
    (Examples.four_files 8 8 8 8)
  = (Uncaught TypeError, initial (Examples.four_files 8 8 8 8)).
Proof.
  apply (missing_seed_raises Examples.quiet
           "s_R1.fastq" "s_R2.fastq" "c_R1.fastq" "c_R2.fastq"
           Examples.p_0_5 [] (Examples.four_files 8 8 8 8)
           (Examples.lines_of 8 "s1") (Examples.lines_of 8 "s2")
           (Examples.lines_of 8 "c1") (Examples.lines_of 8 "c2")
           (8, 1, 1) (initial (Examples.four_files 8 8 8 8)) 50);
    vm_compute; reflexivity.
Defined.

Lemma command_statuses_are_ignored_witness :
  run Examples.quiet (Examples.command_line [Examples.p_0_2; Examples.p_0_5] 5)
    (Examples.four_files 8 8 8 8)
  = run Examples.not_found
      (Examples.command_line [Examples.p_0_2; Examples.p_0_5] 5)
      (Examples.four_files 8 8 8 8).
Proof.
  apply (command_statuses_are_ignored Examples.quiet Examples.not_found).
  intros cmd fs. reflexivity.
Defined.

Lemma files_change_only_through_commands_witness :
  files (run Examples.quiet
           (Examples.command_line [Examples.p_0_2; Examples.p_0_5] 5)
           (Examples.four_files 8 8 8 8)).2
  = Examples.four_files 8 8 8 8.
Proof.
  apply (files_change_only_through_commands Examples.quiet
           (λ m, m = Examples.four_files 8 8 8 8)).
  - intros cmd fs H. exact H.
  - reflexivity.
Defined.

Lemma file_names_are_not_quoted_witness :
  Shell.words
    (sample_command 7 "temp_sample25" 5 "s_R1.fastq" "s_R2.fastq")
  = ["fastq-sample"; "-n"; "7"; "-o"; "temp_sample25"; "-s"; "5";
     "s_R1.fastq"; "s_R2.fastq"]
  ∧ Shell.words
      (sample_command 7 "temp_sample25" 5 "my sample_R1.fastq" "s_R2.fastq")
    = ["fastq-sample"; "-n"; "7"; "-o"; "temp_sample25"; "-s"; "5";
       "my"; "sample_R1.fastq"; "s_R2.fastq"].
Proof.
  destruct (file_names_are_not_quoted 7 "temp_sample25" 5 "s_R2.fastq")
    as [A B]; [reflexivity..|].
  split.
  - exact (A "s_R1.fastq" eq_refl).
  - exact (B "my" "sample_R1.fastq" eq_refl eq_refl).
Defined.

Lemma proportion_in_unit_interval_never_raises_witness :
  ∃ k sl cl,
    percent Examples.p_0_25 = inr k ∧ 0 ≤ k ∧ 0 ≤ sl ∧ 0 ≤ cl
    ∧ process_proportion Examples.quiet
        "s_R1.fastq" "s_R2.fastq" "c_R1.fastq" "c_R2.fastq" (Some 5)
        Examples.p_0_25 (initial (Examples.four_files 40 40 12 12)) =
        (if Z.of_nat (length (Examples.lines_of 12 "c1")) <? cl
         then (SysExit None,
               say (initial (Examples.four_files 40 40 12 12))
                 (too_small cl Examples.p_0_25))
         else (Ok tt,
               after_simulation Examples.quiet
                 "s_R1.fastq" "s_R2.fastq" "c_R1.fastq" "c_R2.fastq"
                 (sl / 4) (cl / 4) 5 k
                 (initial (Examples.four_files 40 40 12 12)))).
Proof.
  apply (proportion_in_unit_interval_never_raises Examples.quiet
           "s_R1.fastq" "s_R2.fastq" "c_R1.fastq" "c_R2.fastq" 5
           Examples.p_0_25 (initial (Examples.four_files 40 40 12 12))
           (Examples.lines_of 40 "s1") (Examples.lines_of 12 "c1"));
    vm_compute; reflexivity.
Defined.

Lemma proportion_zero_and_one_witness :
  calculateLinesRequired "s_R1.fastq" "c_R1.fastq" Examples.p_0
      (initial (Examples.four_files 8 8 8 8))
    = (Ok (8, 2, 0), initial (Examples.four_files 8 8 8 8))
  ∧ calculateLinesRequired "s_R1.fastq" "c_R1.fastq" Examples.p_1
      (initial (Examples.four_files 8 8 8 8))
    = (Ok (8, 0, 2), initial (Examples.four_files 8 8 8 8))
  ∧ percent Examples.p_0 = inr 0 ∧ percent Examples.p_1 = inr 100.
Proof.
  refine (proportion_zero_and_one "s_R1.fastq" "c_R1.fastq"
            (initial (Examples.four_files 8 8 8 8))
            (Examples.lines_of 8 "s1") (Examples.lines_of 8 "c1") _ _ _);
    vm_compute; reflexivity.
Defined.

Lemma sizing_guard_bounds_contaminant_request_witness :
  ∃ Ls sl cl,
    files (initial (Examples.four_files 40 40 12 12)) !! "s_R1.fastq" = Some Ls
    ∧ 40 = Z.of_nat (length Ls)
    ∧ numOfSampleLines 40 Examples.p_0_25 = inr sl
    ∧ numOfContaminantLines 40 Examples.p_0_25 = inr cl
    ∧ 7 = sl / 4 ∧ 2 = cl / 4
    ∧ cl ≤ Z.of_nat (length (Examples.lines_of 12 "c1"))
    ∧ 4 * 2 ≤ Z.of_nat (length (Examples.lines_of 12 "c1")).
Proof.
  apply (sizing_guard_bounds_contaminant_request "s_R1.fastq" "c_R1.fastq"
           Examples.p_0_25 (initial (Examples.four_files 40 40 12 12))
           40 7 2 (initial (Examples.four_files 40 40 12 12))
           (Examples.lines_of 12 "c1"));
    vm_compute; reflexivity.
Defined.

(* ===================================================================== *)
(** * Part VII — the seed of the samplings; where concatenation fails *)
(* ===================================================================== *)

(** ** The first words of a command line *)

Section FirstWords.

#[local] Arguments String.append : simpl nomatch.

Lemma words_cons w rest :
  Shell.is_word w = true →
  Shell.words (w +:+ " " +:+ rest) = w :: Shell.words rest.
Proof.
  intros Hw. unfold Shell.words.
  assert (Shell.blank_free w = true ∧ w ≠ "") as [Hb Hne]
    by (by destruct w).
  rewrite (scan_blank_free w _ Hb).
  change (" " +:+ rest) with (String " " rest). cbn [Shell.scan].
  destruct (Shell.scan rest) as [w0 ws]. cbn.
  rewrite string_app_nil_r. by destruct w.
Qed.

Lemma is_word_temp_sample k : Shell.is_word (temp_sample k) = true.
Proof.
  apply is_word_suffixed; [done|apply plain_chars_dec|apply dec_nonempty].
Qed.

Lemma is_word_temp_contaminant k : Shell.is_word (temp_contaminant k) = true.
Proof.
  apply is_word_suffixed; [done|apply plain_chars_dec|apply dec_nonempty].
Qed.

(** The sampler command line starts with seven words, whatever the file
    names are: the program, the count, the prefix and the seed. *)
Lemma sample_command_words n pre sd f1 f2 :
  Shell.is_word pre = true →
  Shell.words (sample_command n pre sd f1 f2) =
    "fastq-sample" :: "-n" :: dec n :: "-o" :: pre :: "-s" :: dec sd
      :: Shell.words (f1 +:+ " " +:+ f2).
Proof.
  intros Hpre.
  change (sample_command n pre sd f1 f2) with
    ("fastq-sample" +:+ " " +:+ "-n" +:+ " " +:+ dec n +:+ " " +:+ "-o"
     +:+ " " +:+ pre +:+ " " +:+ "-s" +:+ " " +:+ dec sd +:+ " "
     +:+ (f1 +:+ " " +:+ f2)).
  by do 7 (rewrite words_cons; [|first [done|apply is_word_dec]]).
Qed.

End FirstWords.

(** ** Environments that agree on the seed of the run *)

(** Two environments that answer alike every sampler command line carrying
    the seed [sd] and every command line that starts with [cat ]; they may
    differ on anything else, in particular on samplings with another
    seed. *)
Section SameSeed.

Variables shell shell' : string → file_system → file_system * Z.
Variable sd : Z.
Hypothesis same_sampling : ∀ n pre f1 f2 fs,
  Shell.is_word pre = true →
  shell (sample_command n pre sd f1 f2) fs
  = shell' (sample_command n pre sd f1 f2) fs.
Hypothesis same_cat : ∀ rest fs,
  shell ("cat " +:+ rest) fs = shell' ("cat " +:+ rest) fs.

Lemma simulateContamination_same_seed s1 s2 c1 c2 p ns nc w :
  simulateContamination shell s1 s2 c1 c2 p ns nc (Some sd) w =
  simulateContamination shell' s1 s2 c1 c2 p ns nc (Some sd) w.
Proof using same_sampling same_cat.
  destruct (percent p) as [e|k] eqn:Hk.
  - by rewrite !(simulateContamination_raises _ s1 s2 c1 c2 p ns nc _ w e Hk).
  - rewrite !(simulateContamination_calls _ s1 s2 c1 c2 p ns nc sd k w Hk).
    cbv zeta. unfold after_call. cbn [files stdout issued].
    rewrite !(same_sampling _ _ _ _ _ (is_word_temp_sample k)).
    rewrite !(same_sampling _ _ _ _ _ (is_word_temp_contaminant k)).
    change (combine_command ?ts ?tc ?k1 ?f1 ?k2 ?f2) with
      ("cat " +:+ ts +:+ ".1.fastq " +:+ tc +:+ ".1.fastq > "
       +:+ output_name k1 f1 +:+ " &&"
       +:+ " cat " +:+ ts +:+ ".2.fastq " +:+ tc +:+ ".2.fastq > "
       +:+ output_name k2 f2 +:+ " &&"
       +:+ " rm " +:+ ts +:+ ".1.fastq " +:+ tc +:+ ".1.fastq "
       +:+ ts +:+ ".2.fastq " +:+ tc +:+ ".2.fastq").
    by rewrite !same_cat.
Qed.

Lemma for_each_proportion_same_seed s1 s2 c1 c2 props w :
  for_each_proportion shell s1 s2 c1 c2 (Some sd) props w =
  for_each_proportion shell' s1 s2 c1 c2 (Some sd) props w.
Proof using same_sampling same_cat.
  revert w. induction props as [|p props IH]; intros w; [done|].
  cbn [for_each_proportion].
  apply bind_ext; [|intros _; apply IH].
  intros w1. unfold process_proportion. apply bind_ext; [done|].
  intros [[n ns] nc] w2. apply bind_ext; [|done].
  apply simulateContamination_same_seed.
Qed.

Lemma main_same_seed a w :
  seed a = Some sd → main shell a w = main shell' a w.
Proof using same_sampling same_cat.
  destruct a as [sf cf ps sd']. cbn [seed]. intros ->. unfold main.
  repeat (apply bind_ext; [done|]; intros).
  cbn [proportionContaminant seed]. destruct ps; [|done].
  apply for_each_proportion_same_seed.
Qed.

End SameSeed.

Section SeedClaim.

Variables shell shell' : string → file_system → file_system * Z.

(** C5.  Both samplings of a proportion carry the seed given on the command
    line: the two sampler command lines are issued with [-s <seed>], the
    seventh word of each, after [-s], is the decimal of the seed, which
    reads back as the seed, whatever the file names are; the third command
    is the concatenation.  Two runs on the same arguments and files give
    the same outcome, files, output and command log as soon as their
    environments answer alike the sampler command lines that carry this
    seed and the command lines that start with [cat] (a sampler that is
    deterministic at the given seed); the environments may differ on
    samplings with any other seed. *)
Theorem same_seed_and_reproducible s1 s2 c1 c2 p ns nc sd k w a fs :
  percent p = inr k →
  let sampling (n : Z) (pre f1 f2 : string) :=
    "fastq-sample -n " +:+ dec n +:+ " -o " +:+ pre
    +:+ " -s " +:+ dec sd +:+ " " +:+ f1 +:+ " " +:+ f2 in
  let first := sampling ns (temp_sample k) s1 s2 in
  let second := sampling nc (temp_contaminant k) c1 c2 in
  (∃ rest,
     issued (simulateContamination shell s1 s2 c1 c2 p ns nc (Some sd) w).2
       = issued w ++ [first; second; "cat " +:+ rest])
  ∧ Shell.words first !! 5%nat = Some "-s"
  ∧ Shell.words first !! 6%nat = Some (dec sd)
  ∧ Shell.words second !! 5%nat = Some "-s"
  ∧ Shell.words second !! 6%nat = Some (dec sd)
  ∧ undec (dec sd) = Some sd
  ∧ (seed a = Some sd →
     (∀ n pre f1 f2 fs, Shell.is_word pre = true →
        shell (sampling n pre f1 f2) fs = shell' (sampling n pre f1 f2) fs) →
     (∀ rest fs, shell ("cat " +:+ rest) fs = shell' ("cat " +:+ rest) fs) →
     run shell a fs = run shell' a fs).
Proof.
  intros Hk sampling first second.
  split_and!.
  - eexists.
    destruct (simulateContamination_after shell s1 s2 c1 c2 p ns nc sd k w Hk)
      as [rc ->].
    apply after_simulation_issued.
  - unfold first. change (sampling ?n ?pre ?f1 ?f2)
      with (sample_command n pre sd f1 f2).
    by rewrite (sample_command_words _ _ _ _ _ (is_word_temp_sample k)).
  - unfold first. change (sampling ?n ?pre ?f1 ?f2)
      with (sample_command n pre sd f1 f2).
    by rewrite (sample_command_words _ _ _ _ _ (is_word_temp_sample k)).
  - unfold second. change (sampling ?n ?pre ?f1 ?f2)
      with (sample_command n pre sd f1 f2).
    by rewrite (sample_command_words _ _ _ _ _ (is_word_temp_contaminant k)).
  - unfold second. change (sampling ?n ?pre ?f1 ?f2)
      with (sample_command n pre sd f1 f2).
    by rewrite (sample_command_words _ _ _ _ _ (is_word_temp_contaminant k)).
  - apply undec_dec.
  - intros Hsd Hsampling Hcat. unfold run.
    by apply (main_same_seed shell shell' sd).
Qed.

End SeedClaim.

(** C5 on two environments that differ: [seed_6_fails] loses every file on
    a sampling with seed 6, [quiet] does not; on a run with seed 5 they give
    the same result. *)
Lemma same_seed_and_reproducible_witness :
  (∃ rest,
     issued
       (simulateContamination Examples.quiet
          "s_R1.fastq" "s_R2.fastq" "c_R1.fastq" "c_R2.fastq"
          Examples.p_0_25 7 2 (Some 5)
          (initial (Examples.four_files 40 40 12 12))).2
     = ["fastq-sample -n 7 -o temp_sample25 -s 5 s_R1.fastq s_R2.fastq";
        "fastq-sample -n 2 -o temp_contaminant25 -s 5 c_R1.fastq c_R2.fastq";
        "cat " +:+ rest])
  ∧ run Examples.quiet
      (Examples.command_line [Examples.p_0_25; Examples.p_0_5] 5)
      (Examples.four_files 40 40 12 12)
    = run Examples.seed_6_fails
        (Examples.command_line [Examples.p_0_25; Examples.p_0_5] 5)
        (Examples.four_files 40 40 12 12)
  ∧ Examples.quiet
      "fastq-sample -n 7 -o temp_sample25 -s 6 s_R1.fastq s_R2.fastq"
      (Examples.four_files 40 40 12 12)
    ≠ Examples.seed_6_fails
        "fastq-sample -n 7 -o temp_sample25 -s 6 s_R1.fastq s_R2.fastq"
        (Examples.four_files 40 40 12 12).
Proof.
  destruct (same_seed_and_reproducible Examples.quiet Examples.seed_6_fails
    "s_R1.fastq" "s_R2.fastq" "c_R1.fastq" "c_R2.fastq"
    Examples.p_0_25 7 2 5 25 (initial (Examples.four_files 40 40 12 12))
    (Examples.command_line [Examples.p_0_25; Examples.p_0_5] 5)
    (Examples.four_files 40 40 12 12))
    as (A & _ & _ & _ & _ & _ & R); [vm_compute; reflexivity|].
  split_and!.
  - exact A.
  - apply R; [reflexivity| |].
    + intros n pre f1 f2 fs Hpre. unfold Examples.quiet, Examples.seed_6_fails.
      change ("fastq-sample -n " +:+ dec n +:+ " -o " +:+ pre +:+ " -s "
              +:+ dec 5 +:+ " " +:+ f1 +:+ " " +:+ f2)
        with (sample_command n pre 5 f1 f2).
      rewrite (sample_command_words _ _ _ _ _ Hpre).
      rewrite bool_decide_eq_false_2; [done|].
      intros [_ H]. vm_compute in H. discriminate.
    + intros rest fs. unfold Examples.quiet, Examples.seed_6_fails.
      change ("cat " +:+ rest) with ("cat" +:+ " " +:+ rest).
      rewrite words_cons by done.
      rewrite bool_decide_eq_false_2; [done|].
      intros [H _]. vm_compute in H. discriminate.
  - vm_compute. discriminate.
Defined.

(** ** Where the concatenation is not obtained *)


(** A line count too large for a double: the conversion raises. *)
Lemma huge_line_count_overflows :
  numOfSampleLines (2 ^ 1024) Examples.p_0_5 = inl OverflowError
  ∧ numOfContaminantLines (2 ^ 1024) Examples.p_0_5 = inl OverflowError.
Proof. split; vm_compute; reflexivity. Qed.
